(** * cursor-agents command-line tools: a shallow embedding

    The repository is a set of stand-alone Python scripts under [tools/].
    Every script parses its flags, resolves the base URL of the cursor-agents
    API from the process environment, performs at most one [urlopen] call and
    reports the result on the standard streams.

    The scripts are embedded as programs of a small state-and-exception
    monad.  Everything outside the repository is an input of the model: the
    process environment, the answer of the network, and the handful of
    Python library routines whose exact behaviour the scripts take as given
    ([json.loads], [repr], [int], the URL check of [urllib.request.Request]).
    One module per script keeps the names of the source.

    What the model leaves out:
    - a command line is the sequence of arguments argparse resolves its
      tokens to (an option with its value, a switch, a request for help, a
      token it cannot match); how tokens are split and abbreviated options
      are completed is not represented;
    - text is a sequence of 8-bit characters;
    - one call of [urlopen] is one answer: the redirects urllib follows on
      its own inside the call, and what its opener reads from the
      environment to reach the server, are part of the answer;
    - writing to the standard streams does not fail. *)

From Stdlib Require Import String Ascii List ZArith Lia Bool DecimalString.
From stdpp Require Import gmap strings.
Import ListNotations.
Local Open Scope Z_scope.
Local Open Scope string_scope.

(** ** Text *)

(** Python [str] values are modelled by Rocq strings, one character per code
    point (so the model covers code points below 256). *)

Definition dquote : string := String "034"%char EmptyString.
Definition backslash : string := String "092"%char EmptyString.
Definition newline : string := String "010"%char EmptyString.

(** [int.__repr__]: the decimal numeral of an integer. *)
Definition string_of_Z (z : Z) : string := NilZero.string_of_int (Z.to_int z).

(** [needle in hay] on two Python strings. *)
Fixpoint str_contains (needle hay : string) : bool :=
  String.prefix needle hay ||
  match hay with
  | EmptyString => false
  | String _ rest => str_contains needle rest
  end.

(** Python's truth value of a string. *)
Definition nonempty (s : string) : bool :=
  match s with EmptyString => false | String _ _ => true end.

(** Truth value of an argparse attribute that is [None] unless supplied. *)
Definition truthy (o : option string) : bool :=
  match o with Some s => nonempty s | None => false end.

(** ** JSON values *)

(** The Python values the scripts handle are decoded JSON documents and the
    dictionaries built from them.  A [dict] keeps its insertion order, which
    [json.dumps] shows, so it is an association list with distinct keys.  A
    float is identified by the text [json.dumps] emits for it. *)
#[warnings="-register-all"]
Inductive json : Type :=
| JNull
| JBool (b : bool)
| JInt (z : Z)
| JFloat (text : string)
| JStr (s : string)
| JArr (items : list json)
| JObj (members : list (string * json)).

Definition dict : Type := list (string * json).

Fixpoint dict_lookup (k : string) (d : dict) : option json :=
  match d with
  | [] => None
  | (k', v) :: d' => if String.eqb k k' then Some v else dict_lookup k d'
  end.

(** [k in d] *)
Definition dict_contains (k : string) (d : dict) : bool :=
  match dict_lookup k d with Some _ => true | None => false end.

(** [d.get(k, default)] *)
Definition dict_get (k : string) (default : json) (d : dict) : json :=
  match dict_lookup k d with Some v => v | None => default end.

(** [d[k] = v]: an existing key keeps its position, a new one goes last. *)
Fixpoint dict_set (k : string) (v : json) (d : dict) : dict :=
  match d with
  | [] => [(k, v)]
  | (k', v') :: d' =>
      if String.eqb k k' then (k, v) :: d' else (k', v') :: dict_set k v d'
  end.

Definition keys (d : dict) : list string := map fst d.

(** Python's truth value of a dict: false when empty. *)
Definition dict_truthy (d : dict) : bool :=
  match d with [] => false | _ :: _ => true end.

Definition is_str (s : string) (v : json) : bool :=
  match v with JStr s' => String.eqb s s' | _ => false end.

(** [isinstance(v, dict)] *)
Definition isinstance_dict (v : json) : bool :=
  match v with JObj _ => true | _ => false end.

(** [type(v).__name__] *)
Definition type_name (v : json) : string :=
  match v with
  | JNull => "NoneType"
  | JBool _ => "bool"
  | JInt _ => "int"
  | JFloat _ => "float"
  | JStr _ => "str"
  | JArr _ => "list"
  | JObj _ => "dict"
  end.

(** [s in v] for a string [s]: key membership on a dict, element membership
    on a list, substring on a string, and no answer ([TypeError]) on the
    values that are not containers. *)
Definition py_in (s : string) (v : json) : option bool :=
  match v with
  | JObj d => Some (dict_contains s d)
  | JArr l => Some (existsb (is_str s) l)
  | JStr t => Some (str_contains s t)
  | _ => None
  end.

(** ** [json.dumps] *)

Definition hex_digit (n : nat) : string :=
  String.substring n 1 "0123456789abcdef".

(** One character of [json.encoder.py_encode_basestring_ascii]. *)
Definition escape_char (c : ascii) : string :=
  let n := nat_of_ascii c in
  if Nat.eqb n 34 then backslash ++ dquote
  else if Nat.eqb n 92 then backslash ++ backslash
  else if Nat.eqb n 10 then backslash ++ "n"
  else if Nat.eqb n 13 then backslash ++ "r"
  else if Nat.eqb n 9 then backslash ++ "t"
  else if Nat.eqb n 8 then backslash ++ "b"
  else if Nat.eqb n 12 then backslash ++ "f"
  else if Nat.leb 32 n && Nat.leb n 126 then String c EmptyString
  else backslash ++ "u00" ++ hex_digit (Nat.div n 16) ++ hex_digit (Nat.modulo n 16).

Fixpoint escape_chars (s : string) : string :=
  match s with
  | EmptyString => EmptyString
  | String c rest => escape_char c ++ escape_chars rest
  end.

Definition py_encode_basestring_ascii (s : string) : string :=
  dquote ++ escape_chars s ++ dquote.

Fixpoint spaces (n : nat) : string :=
  match n with O => EmptyString | S n' => String " "%char (spaces n') end.

(** The line break and indentation put before an item at nesting [level];
    nothing when no indent was asked for. *)
Definition newline_indent (indent : option nat) (level : nat) : string :=
  match indent with
  | Some n => newline ++ spaces (n * level)
  | None => EmptyString
  end.

(** [item_separator]: [", "] by default, [","] once an indent is given. *)
Definition item_separator (indent : option nat) (level : nat) : string :=
  match indent with
  | Some _ => "," ++ newline_indent indent level
  | None => ", "
  end.

(** [json.dumps(v, indent=indent)] at nesting [level], for the values of
    [json] (all serialisable, so [default=str] never applies). *)
Fixpoint encode (indent : option nat) (level : nat) (v : json) : string :=
  match v with
  | JNull => "null"
  | JBool true => "true"
  | JBool false => "false"
  | JInt z => string_of_Z z
  | JFloat text => text
  | JStr s => py_encode_basestring_ascii s
  | JArr [] => "[]"
  | JArr items =>
      "[" ++ newline_indent indent (S level)
      ++ String.concat (item_separator indent (S level))
           (map (encode indent (S level)) items)
      ++ newline_indent indent level ++ "]"
  | JObj [] => "{}"
  | JObj members =>
      "{" ++ newline_indent indent (S level)
      ++ String.concat (item_separator indent (S level))
           (map (fun kv : string * json =>
                   let (k, x) := kv in
                   py_encode_basestring_ascii k ++ ": " ++ encode indent (S level) x)
              members)
      ++ newline_indent indent level ++ "}"
  end.

Definition json_dumps (indent : option nat) (v : json) : string :=
  encode indent 0 v.

(** ** Exceptions *)

(** The body of a response as [read().decode('utf-8')] finds it: its text,
    or the exception of class [cls] with message [msg] that reading or
    decoding raises (a timeout or a reset connection while the body
    arrives, bytes that are not UTF-8). *)
Inductive payload : Type :=
| Text (body : string)
| Unreadable (cls : string) (msg : string).

Inductive exn : Type :=
| SystemExit (code : Z)
| ValueError (msg : string)
| JSONDecodeError (msg : string)
| AttributeError (msg : string)
| TypeError (msg : string)
| KeyError (key : string)
| HTTPError (code : Z) (reason : string) (body : payload)
| URLError (reason : string)
| OtherError (cls : string) (msg : string).

(** The classes named in the [except] clauses of the scripts. *)
Inductive exn_class : Type :=
| E_Exception
| E_JSONDecodeError
| E_HTTPError
| E_URLError.

(** [isinstance(e, c)], along Python's class hierarchy: [HTTPError] derives
    from [URLError], and [SystemExit] is not an [Exception]. *)
Definition isinstance (e : exn) (c : exn_class) : bool :=
  match c, e with
  | E_Exception, SystemExit _ => false
  | E_Exception, _ => true
  | E_JSONDecodeError, JSONDecodeError _ => true
  | E_HTTPError, HTTPError _ _ _ => true
  | E_URLError, URLError _ => true
  | E_URLError, HTTPError _ _ _ => true
  | _, _ => false
  end.

(** [str(e)] *)
Definition exn_str (e : exn) : string :=
  match e with
  | SystemExit code => string_of_Z code
  | ValueError msg => msg
  | JSONDecodeError msg => msg
  | AttributeError msg => msg
  | TypeError msg => msg
  | KeyError key => "'" ++ key ++ "'"
  | HTTPError code reason _ => "HTTP Error " ++ string_of_Z code ++ ": " ++ reason
  | URLError reason => "<urlopen error " ++ reason ++ ">"
  | OtherError _ msg => msg
  end.

(** The qualified class name the interpreter prints for an exception. *)
Definition exn_name (e : exn) : string :=
  match e with
  | SystemExit _ => "SystemExit"
  | ValueError _ => "ValueError"
  | JSONDecodeError _ => "json.decoder.JSONDecodeError"
  | AttributeError _ => "AttributeError"
  | TypeError _ => "TypeError"
  | KeyError _ => "KeyError"
  | HTTPError _ _ _ => "urllib.error.HTTPError"
  | URLError _ => "urllib.error.URLError"
  | OtherError cls _ => cls
  end.

(** The last line of the report the interpreter writes for an exception
    nobody caught. *)
Definition exn_line (e : exn) : string :=
  if nonempty (exn_str e) then exn_name e ++ ": " ++ exn_str e else exn_name e.

(** ** The world around a script *)

(** A [urllib.request.Request] object. *)
Record Request : Type := {
  full_url : string;
  req_data : option string;
  req_headers : list (string * string);
  req_method : option string
}.

(** [Request.get_method()] *)
Definition get_method (r : Request) : string :=
  match req_method r with
  | Some m => m
  | None => match req_data r with Some _ => "POST" | None => "GET" end
  end.

(** What [urlopen] can raise besides [HTTPError]: a [URLError] (refused
    connection, failed name resolution, timeout while connecting), or another
    exception of class [cls] whose [str] is [msg] (an invalid URL, a timeout
    or a broken connection before the status line has arrived). *)
Inductive fault : Type :=
| UrlopenError (reason : string)
| OtherFault (cls : string) (msg : string).

(** The answer to one [urlopen] call: the final HTTP response (redirects
    already followed by urllib, through the proxy its opener takes from the
    environment, if any) with its body read and decoded; or a response
    whose status arrives and whose body cannot be read or decoded, with the
    exception that [read().decode('utf-8')] raises; or a fault. *)
Inductive reply : Type :=
| Response (status : Z) (reason : string) (body : string)
| Unread (status : Z) (reason : string) (cls : string) (msg : string)
| Fault (f : fault).

(** What [json.loads] raises on a text it does not decode: a
    [JSONDecodeError] on a text that is no JSON document, or an exception of
    another class on a document the decoder gives up on (a [RecursionError]
    on deep nesting, a [ValueError] on an integer with too many digits). *)
Inductive refusal : Type :=
| Malformed (msg : string)
| Crashed (cls : string) (msg : string).

(** The Python library routines whose results the scripts take as given. *)
Record Python : Type := {
  (** [json.loads]: the decoded document, or the exception raised *)
  loads : string -> json + refusal;
  (** [repr] *)
  repr : json -> string;
  (** [int(s)], [None] for [ValueError] *)
  int_of_str : string -> option Z;
  (** the message of the [ValueError] raised by [urllib.request.Request] on
      a URL without a scheme, [None] when the URL is accepted *)
  request_url_error : string -> option string;
  (** what the interpreter prints before the last line of the report of an
      uncaught exception (taken as a function of the exception alone) *)
  traceback : exn -> string;
  (** what argparse prints before the message of an error: the usage line
      and the program name *)
  argparse_banner : string;
  (** what argparse prints for [-h]: usage, description, options and
      epilog *)
  argparse_help : string
}.

(** A host is one process and its surroundings: what the library routines
    do there, the environment, and what urllib gets from the network for
    each call (an answer that is the network's and the opener's: urllib
    takes its proxy from the same environment). *)
Record Host : Type := {
  python : Python;
  environ : gmap string string;
  network : Request -> option Z -> reply
}.

(** The calls a process makes into urllib, in order. *)
Inductive Event : Type :=
| BuildRequest (r : Request)
| Urlopen (r : Request) (timeout : option Z).

(** The observable state of a running process. *)
Record Proc : Type := {
  out : string;
  err : string;
  trace : list Event
}.

Definition start : Proc := {| out := EmptyString; err := EmptyString; trace := [] |}.

(** ** The monad of the scripts *)

Inductive result (A : Type) : Type :=
| Normal (a : A)
| Raise (e : exn).
Arguments Normal {A} a.
Arguments Raise {A} e.

Definition M (A : Type) : Type := Host -> Proc -> result A * Proc.

Definition ret {A} (a : A) : M A := fun _ p => (Normal a, p).

Definition bind {A B} (m : M A) (k : A -> M B) : M B :=
  fun h p =>
    match m h p with
    | (Normal a, p') => k a h p'
    | (Raise e, p') => (Raise e, p')
    end.

Definition raise {A} (e : exn) : M A := fun _ p => (Raise e, p).

Declare Scope py_scope.
Delimit Scope py_scope with py.
Bind Scope py_scope with M.
Notation "x <- m ;; k" := (bind m (fun x => k))
  (at level 100, m at next level, right associativity) : py_scope.
Notation "m ;; k" := (bind m (fun _ => k))
  (at level 100, right associativity) : py_scope.
Local Open Scope py_scope.

(** [try: body  except c1 as e: k1 e  except c2 as e: k2 e ...]: the first
    clause whose class the exception belongs to handles it; an exception of
    no listed class, or one raised by a handler, propagates. *)
Definition try_except {A} (body : M A) (clauses : list (exn_class * (exn -> M A))) : M A :=
  fun h p =>
    match body h p with
    | (Normal a, p') => (Normal a, p')
    | (Raise e, p') =>
        match find (fun cl => isinstance e (fst cl)) clauses with
        | Some (_, k) => k e h p'
        | None => (Raise e, p')
        end
    end.

(** [print(s)] *)
Definition print (s : string) : M unit :=
  fun _ p => (Normal tt, {| out := out p ++ s ++ newline; err := err p; trace := trace p |}).

(** [print(s, file=sys.stderr)] *)
Definition eprint (s : string) : M unit :=
  fun _ p => (Normal tt, {| out := out p; err := err p ++ s ++ newline; trace := trace p |}).

(** [sys.exit(code)] *)
Definition sys_exit {A} (code : Z) : M A := raise (SystemExit code).

Definition log (ev : Event) : M unit :=
  fun _ p => (Normal tt, {| out := out p; err := err p; trace := trace p ++ [ev] |}).

(** [os.getenv(key, default)] *)
Definition os_getenv (key default : string) : M string :=
  fun h p => (Normal (match environ h !! key with Some v => v | None => default end), p).

(** [json.loads(s)] *)
Definition json_loads (s : string) : M json :=
  fun h p =>
    match loads (python h) s with
    | inl v => (Normal v, p)
    | inr (Malformed msg) => (Raise (JSONDecodeError msg), p)
    | inr (Crashed cls msg) => (Raise (OtherError cls msg), p)
    end.

(** [urllib.request.Request(url, data=..., headers=..., method=...)] *)
Definition new_Request (url : string) (data : option string)
    (headers : list (string * string)) (method : option string) : M Request :=
  let r := {| full_url := url; req_data := data; req_headers := headers; req_method := method |} in
  log (BuildRequest r) ;;
  fun h p =>
    match request_url_error (python h) url with
    | Some msg => (Raise (ValueError msg), p)
    | None => (Normal r, p)
    end.

(** A status of the 2xx class. *)
Definition is_2xx (status : Z) : bool := (200 <=? status)%Z && (status <? 300)%Z.

(** [with urllib.request.urlopen(r, timeout=...) as response:
       response.read().decode('utf-8')]: urllib hands back the responses
    with a 2xx status, whose body is then read and decoded, and raises
    [HTTPError] for every other one, with the body still to be read. *)
Definition urlopen (r : Request) (timeout : option Z) : M string :=
  log (Urlopen r timeout) ;;
  fun h p =>
    match network h r timeout with
    | Response status reason body =>
        if is_2xx status then (Normal body, p)
        else (Raise (HTTPError status reason (Text body)), p)
    | Unread status reason cls msg =>
        if is_2xx status then (Raise (OtherError cls msg), p)
        else (Raise (HTTPError status reason (Unreadable cls msg)), p)
    | Fault (UrlopenError reason) => (Raise (URLError reason), p)
    | Fault (OtherFault cls msg) => (Raise (OtherError cls msg), p)
    end.

(** [e.code] of a caught [HTTPError] *)
Definition http_code (e : exn) : Z :=
  match e with HTTPError code _ _ => code | _ => 0 end.

(** [e.read().decode('utf-8')] of a caught [HTTPError]: the text of the
    body, or the exception that reading or decoding it raises. *)
Definition http_body (e : exn) : M string :=
  match e with
  | HTTPError _ _ (Text body) => ret body
  | HTTPError _ _ (Unreadable cls msg) => raise (OtherError cls msg)
  | _ => ret EmptyString
  end.

(** [s in v] *)
Definition py_contains (s : string) (v : json) : M bool :=
  match py_in s v with
  | Some b => ret b
  | None => raise (TypeError ("argument of type '" ++ type_name v ++ "' is not iterable"))
  end.

(** [v.get(k, default)] *)
Definition py_get (v : json) (k : string) (default : json) : M json :=
  match v with
  | JObj d => ret (dict_get k default d)
  | _ => raise (AttributeError ("'" ++ type_name v ++ "' object has no attribute 'get'"))
  end.

(** [v[k]] for a string [k] *)
Definition py_getitem (v : json) (k : string) : M json :=
  match v with
  | JObj d => match dict_lookup k d with Some x => ret x | None => raise (KeyError k) end
  | JArr _ => raise (TypeError "list indices must be integers or slices, not str")
  | JStr _ => raise (TypeError "string indices must be integers, not 'str'")
  | _ => raise (TypeError ("'" ++ type_name v ++ "' object is not subscriptable"))
  end.

(** [str(v)], as an f-string formats a value: a string stands for itself,
    every other value for its [repr]. *)
Definition py_str (v : json) : M string :=
  fun h p => (Normal (match v with JStr s => s | _ => repr (python h) v end), p).

(** [int(s)] as argparse applies it to the value of a [type=int] flag *)
Definition py_int (s : string) : M (option Z) :=
  fun h p => (Normal (int_of_str (python h) s), p).

(** [parser.error(msg)]: argparse writes its banner and the message to the
    standard error stream and leaves with status 2. *)
Definition argparse_error {A} (msg : string) : M A :=
  (fun h p => (Normal tt, {| out := out p;
                             err := err p ++ argparse_banner (python h) ++ "error: " ++ msg ++ newline;
                             trace := trace p |})) ;;
  sys_exit 2.

(** [parser.print_help()] followed by [parser.exit()]: the action of
    [-h]. *)
Definition argparse_show_help {A} : M A :=
  (fun h p => (Normal tt, {| out := out p ++ argparse_help (python h);
                             err := err p;
                             trace := trace p |})) ;;
  sys_exit 0.

(** ** Running a script *)

(** What is left of a process when it has ended. *)
Record Outcome : Type := {
  exit_code : Z;
  stdout : string;
  stderr : string;
  calls : list Event;
  uncaught : option exn
}.

(** A script that returns ends with status 0; [SystemExit] ends it with the
    given status; any other exception is reported by the interpreter on the
    standard error stream and ends it with status 1. *)
Definition conclude (h : Host) (ending : result unit * Proc) : Outcome :=
  match ending with
  | (Normal _, p) =>
      {| exit_code := 0; stdout := out p; stderr := err p; calls := trace p; uncaught := None |}
  | (Raise (SystemExit code), p) =>
      {| exit_code := code; stdout := out p; stderr := err p; calls := trace p; uncaught := None |}
  | (Raise e, p) =>
      {| exit_code := 1; stdout := out p;
         stderr := err p ++ traceback (python h) e ++ exn_line e ++ newline;
         calls := trace p; uncaught := Some e |}
  end.

Definition run (h : Host) (main : M unit) : Outcome := conclude h (main h start).

(** The [urlopen] calls among the events, each with its request and its
    timeout.  A call is what a script sends; urllib may turn one call into
    several exchanges with servers when it follows redirects. *)
Definition sent (evs : list Event) : list (Request * option Z) :=
  flat_map (fun ev => match ev with Urlopen r t => [(r, t)] | BuildRequest _ => [] end) evs.

(** The requests that were built. *)
Definition built (evs : list Event) : list Request :=
  flat_map (fun ev => match ev with BuildRequest r => [r] | Urlopen _ _ => [] end) evs.

(** ** argparse *)

(** One argument of a command line, as argparse resolves it against the
    options of a parser: [-h] or [--help]; an option with a value
    ([--name x], [-n x], [--name=x]); an option without one ([--one-time],
    or [--name] with nothing after it); an argument argparse rejects where
    it stands for a reason of its own, with the message (an ambiguous
    abbreviation); a token that matches no option.  An option is named by
    its first option string. *)
Inductive Arg : Type :=
| Help
| Opt (flag : string) (value : string)
| Switch (flag : string)
| Broken (msg : string)
| Stray (token : string).

(** What an [add_argument] call declares: the default action with a string
    value, [type=int], or [action='store_true']. *)
Inductive Action : Type :=
| Store
| StoreInt
| StoreTrue.

(** One [add_argument] call: the first option string, the name argparse
    gives the option in its messages, the action, [required] and
    [choices].  (Defaults are applied where the namespace is read.) *)
Record Declared : Type := option_ {
  opt_flag : string;
  opt_names : string;
  opt_action : Action;
  opt_required : bool;
  opt_choices : option (list string)
}.

Definition declared (parser : list Declared) (flag : string) : option Declared :=
  find (fun d => String.eqb flag (opt_flag d)) parser.

(** The value an option ends with: the last one on the command line. *)
Fixpoint given (flag : string) (argv : list Arg) : option string :=
  match argv with
  | [] => None
  | a :: rest =>
      match given flag rest with
      | Some v => Some v
      | None =>
          match a with
          | Opt f v => if String.eqb f flag then Some v else None
          | _ => None
          end
      end
  end.

(** Whether a switch is on the command line. *)
Definition present (flag : string) (argv : list Arg) : bool :=
  existsb (fun a => match a with Switch f => String.eqb f flag | _ => false end) argv.

(** The message of the error argparse raises when it reaches one argument,
    if it does: a value for a switch, a value that does not convert or is
    not among the choices, an option without its value.  An argument that
    matches no declared option is set aside without an error. *)
Definition rejection (py : Python) (parser : list Declared) (a : Arg) : option string :=
  match a with
  | Help => None
  | Opt flag v =>
      match declared parser flag with
      | None => None
      | Some d =>
          match opt_action d with
          | StoreTrue =>
              Some ("argument " ++ opt_names d ++ ": ignored explicit argument "
                    ++ repr py (JStr v))
          | StoreInt =>
              match int_of_str py v with
              | Some _ => None
              | None =>
                  Some ("argument " ++ opt_names d ++ ": invalid int value: "
                        ++ repr py (JStr v))
              end
          | Store =>
              match opt_choices d with
              | Some choices =>
                  if existsb (String.eqb v) choices then None
                  else
                    Some ("argument " ++ opt_names d ++ ": invalid choice: "
                          ++ repr py (JStr v) ++ " (choose from "
                          ++ String.concat ", " (map (fun c => repr py (JStr c)) choices)
                          ++ ")")
              | None => None
              end
          end
      end
  | Switch flag =>
      match declared parser flag with
      | None => None
      | Some d =>
          match opt_action d with
          | StoreTrue => None
          | _ => Some ("argument " ++ opt_names d ++ ": expected one argument")
          end
      end
  | Broken msg => Some msg
  | Stray _ => None
  end.

(** How [parse_args] ends: it prints the help and exits, it reports an
    error and exits, or it returns. *)
Inductive Parse : Type :=
| ShowHelp
| UsageError (msg : string)
| Proceed.

(** argparse walks the command line from left to right and stops at the
    first argument that asks for help or that it rejects. *)
Fixpoint scan (py : Python) (parser : list Declared) (argv : list Arg) : Parse :=
  match argv with
  | [] => Proceed
  | Help :: _ => ShowHelp
  | a :: rest =>
      match rejection py parser a with
      | Some msg => UsageError msg
      | None => scan py parser rest
      end
  end.

Definition supplied (d : Declared) (argv : list Arg) : bool :=
  match opt_action d with
  | StoreTrue => present (opt_flag d) argv
  | _ => match given (opt_flag d) argv with Some _ => true | None => false end
  end.

(** The required options the command line does not give, by name and in
    the order of their declarations. *)
Definition missing (parser : list Declared) (argv : list Arg) : list string :=
  map opt_names (filter (fun d => opt_required d && negb (supplied d argv)) parser).

(** The tokens that match no declared option. *)
Definition unrecognized (parser : list Declared) (argv : list Arg) : list string :=
  flat_map (fun a =>
              match a with
              | Opt flag v =>
                  match declared parser flag with Some _ => [] | None => [flag; v] end
              | Switch flag =>
                  match declared parser flag with Some _ => [] | None => [flag] end
              | Stray token => [token]
              | _ => []
              end) argv.

(** After the walk argparse checks the required options, then the tokens
    it could not match. *)
Definition argparse (py : Python) (parser : list Declared) (argv : list Arg) : Parse :=
  match scan py parser argv with
  | Proceed =>
      match missing parser argv with
      | [] =>
          match unrecognized parser argv with
          | [] => Proceed
          | extras => UsageError ("unrecognized arguments: " ++ String.concat " " extras)
          end
      | names =>
          UsageError ("the following arguments are required: " ++ String.concat ", " names)
      end
  | stop => stop
  end.

(** [parser.parse_args()]: the checks; the values are read from the command
    line afterwards, with [given] and [present]. *)
Definition parse_args (parser : list Declared) (argv : list Arg) : M unit :=
  fun h p =>
    match argparse (python h) parser argv with
    | ShowHelp => argparse_show_help h p
    | UsageError msg => argparse_error msg h p
    | Proceed => (Normal tt, p)
    end.

(** ** The scripts *)

(** Each script is a module with the functions of the source under their
    names.  A script that builds an [ArgumentParser] takes its command line
    as a parameter; [list_agents] and [list_queues] never look at theirs. *)

Definition CURSOR_AGENTS_URL : string := "CURSOR_AGENTS_URL".
Definition default_api_url : string := "http://cursor-agents:3002".
Definition content_type_json : list (string * string) :=
  [("Content-Type", "application/json")].

(** *** tools/create_agent.py *)
Module create_agent.

Definition CommandLine : Type := list Arg.

(** What a command line gives for each option. *)
Definition cl_name (cl : CommandLine) : option string := given "--name" cl.
Definition cl_target_url (cl : CommandLine) : option string := given "--target-url" cl.
Definition cl_method (cl : CommandLine) : option string := given "--method" cl.
Definition cl_headers (cl : CommandLine) : option string := given "--headers" cl.
Definition cl_body (cl : CommandLine) : option string := given "--body" cl.
Definition cl_schedule (cl : CommandLine) : option string := given "--schedule" cl.
Definition cl_one_time (cl : CommandLine) : bool := present "--one-time" cl.
Definition cl_timeout (cl : CommandLine) : option string := given "--timeout" cl.
Definition cl_queue (cl : CommandLine) : option string := given "--queue" cl.

Record Namespace : Type := {
  name : string;
  target_url : string;
  method : string;
  headers : string;
  body : option string;
  schedule : option string;
  one_time : bool;
  timeout : Z;
  queue : option string
}.

Definition method_choices : list string := ["GET"; "POST"; "PUT"; "DELETE"; "PATCH"].

(** The [add_argument] calls, in their order. *)
Definition parser : list Declared :=
  [ option_ "--name" "--name/-n" Store true None;
    option_ "--target-url" "--target-url/-u" Store true None;
    option_ "--method" "--method/-m" Store false (Some method_choices);
    option_ "--headers" "--headers/-H" Store false None;
    option_ "--body" "--body/-b" Store false None;
    option_ "--schedule" "--schedule/-s" Store false None;
    option_ "--one-time" "--one-time/-o" StoreTrue false None;
    option_ "--timeout" "--timeout/-t" StoreInt false None;
    option_ "--queue" "--queue/-q" Store false None ].

(** The namespace [parse_args] returns: each option with the last value
    given, or its default ([POST], [{}], [False], [30000], [None]).  Once
    [parse_args] has returned, the required options have a value and the
    value of [--timeout] converts. *)
Definition parse_arguments (cl : CommandLine) : M Namespace :=
  parse_args parser cl ;;
  timeout <- match cl_timeout cl with
             | None => ret 30000
             | Some t =>
                 converted <- py_int t ;;
                 ret (match converted with Some z => z | None => 30000 end)
             end ;;
  ret {| name := match cl_name cl with Some v => v | None => EmptyString end;
         target_url := match cl_target_url cl with Some v => v | None => EmptyString end;
         method := match cl_method cl with Some m => m | None => "POST" end;
         headers := match cl_headers cl with Some v => v | None => "{}" end;
         body := cl_body cl;
         schedule := cl_schedule cl;
         one_time := cl_one_time cl;
         timeout := timeout;
         queue := cl_queue cl |}.

Definition validate_arguments (args : Namespace) : M unit :=
  (if negb (one_time args) && negb (truthy (schedule args)) then
     eprint "Error: Either --one-time must be true or --schedule must be provided" ;;
     sys_exit 1
   else ret tt) ;;
  (* Validate headers JSON *)
  try_except
    (headers <- json_loads (headers args) ;;
     if negb (isinstance_dict headers) then
       raise (ValueError "Headers must be a JSON object")
     else ret tt)
    [ (E_JSONDecodeError, fun e =>
         eprint ("Error: Invalid JSON in --headers: " ++ exn_str e) ;;
         sys_exit 1) ] ;;
  (* Validate body JSON if provided *)
  match body args with
  | Some b =>
      if nonempty b then
        try_except
          (_ <- json_loads b ;; ret tt)
          [ (E_JSONDecodeError, fun e =>
               eprint ("Error: Invalid JSON in --body: " ++ exn_str e) ;;
               sys_exit 1) ]
      else ret tt
  | None => ret tt
  end.

Definition build_agent_config (args : Namespace) : M dict :=
  headers <- json_loads (headers args) ;;
  let config : dict :=
    [ ("name", JStr (name args));
      ("targetUrl", JStr (target_url args));
      ("method", JStr (method args));
      ("headers", headers);
      ("oneTime", JBool (one_time args));
      ("timeout", JInt (timeout args)) ] in
  config <- match body args with
            | Some b =>
                if nonempty b then
                  v <- json_loads b ;; ret (dict_set "body" v config)
                else ret config
            | None => ret config
            end ;;
  let config :=
    match schedule args with
    | Some s =>
        if negb (one_time args) && nonempty s
        then dict_set "schedule" (JStr s) config else config
    | None => config
    end in
  let config :=
    match queue args with
    | Some q => if nonempty q then dict_set "queue" (JStr q) config else config
    | None => config
    end in
  ret config.

Definition make_request (url : string) (method : string) (data : option dict) : M json :=
  let req_data :=
    match data with
    | Some d => if dict_truthy d then Some (json_dumps None (JObj d)) else None
    | None => None
    end in
  request <- new_Request url req_data content_type_json (Some method) ;;
  try_except
    (response <- urlopen request (Some 30) ;;
     response_data <- json_loads response ;;
     ret response_data)
    [ (E_HTTPError, fun e =>
         error_body <- http_body e ;;
         try_except
           (error_data <- json_loads error_body ;;
            error <- py_get error_data "error" (JStr error_body) ;;
            ret (JObj [("error", error); ("status", JInt (http_code e))]))
           [ (E_JSONDecodeError, fun _ =>
                ret (JObj [("error", JStr error_body); ("status", JInt (http_code e))])) ]);
      (E_Exception, fun e => ret (JObj [("error", JStr (exn_str e))])) ].

Definition main (cl : CommandLine) : M unit :=
  args <- parse_arguments cl ;;
  validate_arguments args ;;
  config <- build_agent_config args ;;
  (* Get API URL from environment or use default *)
  api_url <- os_getenv CURSOR_AGENTS_URL default_api_url ;;
  let url := api_url ++ "/agents" in
  (* Make HTTP request to create agent *)
  result <- make_request url "POST" (Some config) ;;
  failed <- py_contains "error" result ;;
  (if failed then
     eprint (json_dumps (Some 2%nat) result) ;;
     sys_exit 1
   else ret tt) ;;
  (* Output the result *)
  print (json_dumps (Some 2%nat) result).

End create_agent.

(** *** tools/list_agents.py *)
Module list_agents.

Definition make_request (url : string) : M json :=
  request <- new_Request url None [] None ;;
  try_except
    (response <- urlopen request (Some 30) ;;
     json_loads response)
    [ (E_HTTPError, fun e =>
         error_body <- http_body e ;;
         try_except
           (error_data <- json_loads error_body ;;
            error <- py_get error_data "error" (JStr error_body) ;;
            ret (JObj [("error", error); ("status", JInt (http_code e))]))
           [ (E_JSONDecodeError, fun _ =>
                ret (JObj [("error", JStr error_body); ("status", JInt (http_code e))])) ]);
      (E_Exception, fun e => ret (JObj [("error", JStr (exn_str e))])) ].

Definition main : M unit :=
  (* Get API URL from environment or use default *)
  api_url <- os_getenv CURSOR_AGENTS_URL default_api_url ;;
  let url := api_url ++ "/agents" in
  (* Make HTTP request to list agents *)
  result <- make_request url ;;
  failed <- py_contains "error" result ;;
  (if failed then
     eprint (json_dumps (Some 2%nat) result) ;;
     sys_exit 1
   else ret tt) ;;
  (* Output the result *)
  print (json_dumps (Some 2%nat) result).

End list_agents.

(** *** tools/list_queues.py *)
Module list_queues.

Definition make_request (url : string) : M json :=
  request <- new_Request url None [] None ;;
  try_except
    (response <- urlopen request (Some 30) ;;
     json_loads response)
    [ (E_HTTPError, fun e =>
         error_body <- http_body e ;;
         try_except
           (error_data <- json_loads error_body ;;
            error <- py_get error_data "error" (JStr error_body) ;;
            ret (JObj [("error", error); ("status", JInt (http_code e))]))
           [ (E_JSONDecodeError, fun _ =>
                ret (JObj [("error", JStr error_body); ("status", JInt (http_code e))])) ]);
      (E_Exception, fun e => ret (JObj [("error", JStr (exn_str e))])) ].

Definition main : M unit :=
  (* Get API URL from environment or use default *)
  api_url <- os_getenv CURSOR_AGENTS_URL default_api_url ;;
  let url := api_url ++ "/queues" in
  (* Make HTTP request to list queues *)
  result <- make_request url ;;
  failed <- py_contains "error" result ;;
  (if failed then
     eprint (json_dumps (Some 2%nat) result) ;;
     sys_exit 1
   else ret tt) ;;
  (* Output the result *)
  print (json_dumps (Some 2%nat) result).

End list_queues.

(** *** tools/get_agent_status.py *)
Module get_agent_status.

Definition parser : list Declared :=
  [ option_ "--name" "--name/-n" Store true None ].

(** The value of the one option: [parse_args] returns only when it is
    given. *)
Definition parse_arguments (argv : list Arg) : M string :=
  parse_args parser argv ;;
  ret (match given "--name" argv with Some v => v | None => EmptyString end).

Definition make_request (url : string) : M json :=
  request <- new_Request url None [] None ;;
  try_except
    (response <- urlopen request (Some 30) ;;
     json_loads response)
    [ (E_HTTPError, fun e =>
         error_body <- http_body e ;;
         try_except
           (error_data <- json_loads error_body ;;
            error <- py_get error_data "error" (JStr error_body) ;;
            ret (JObj [("error", error); ("status", JInt (http_code e))]))
           [ (E_JSONDecodeError, fun _ =>
                ret (JObj [("error", JStr error_body); ("status", JInt (http_code e))])) ]);
      (E_Exception, fun e => ret (JObj [("error", JStr (exn_str e))])) ].

Definition main (argv : list Arg) : M unit :=
  name <- parse_arguments argv ;;
  (* Get API URL from environment or use default *)
  api_url <- os_getenv CURSOR_AGENTS_URL default_api_url ;;
  let url := api_url ++ "/agents/" ++ name in
  (* Make HTTP request to get agent status *)
  result <- make_request url ;;
  failed <- py_contains "error" result ;;
  (if failed then
     eprint (json_dumps (Some 2%nat) result) ;;
     sys_exit 1
   else ret tt) ;;
  (* Output the result *)
  print (json_dumps (Some 2%nat) result).

End get_agent_status.

(** *** tools/get_queue_info.py *)
Module get_queue_info.

Definition parser : list Declared :=
  [ option_ "--queue-name" "--queue-name/-q" Store true None ].

(** The value of the one option: [parse_args] returns only when it is
    given. *)
Definition parse_arguments (argv : list Arg) : M string :=
  parse_args parser argv ;;
  ret (match given "--queue-name" argv with Some v => v | None => EmptyString end).

Definition make_request (url : string) : M json :=
  request <- new_Request url None [] None ;;
  try_except
    (response <- urlopen request (Some 30) ;;
     json_loads response)
    [ (E_HTTPError, fun e =>
         error_body <- http_body e ;;
         try_except
           (error_data <- json_loads error_body ;;
            error <- py_get error_data "error" (JStr error_body) ;;
            ret (JObj [("error", error); ("status", JInt (http_code e))]))
           [ (E_JSONDecodeError, fun _ =>
                ret (JObj [("error", JStr error_body); ("status", JInt (http_code e))])) ]);
      (E_Exception, fun e => ret (JObj [("error", JStr (exn_str e))])) ].

Definition main (argv : list Arg) : M unit :=
  queue_name <- parse_arguments argv ;;
  (* Get API URL from environment or use default *)
  api_url <- os_getenv CURSOR_AGENTS_URL default_api_url ;;
  let url := api_url ++ "/queues/" ++ queue_name in
  (* Make HTTP request to get queue info *)
  result <- make_request url ;;
  failed <- py_contains "error" result ;;
  (if failed then
     eprint (json_dumps (Some 2%nat) result) ;;
     sys_exit 1
   else ret tt) ;;
  (* Output the result *)
  print (json_dumps (Some 2%nat) result).

End get_queue_info.

(** *** tools/delete_agent.py *)
Module delete_agent.

Definition parser : list Declared :=
  [ option_ "--name" "--name/-n" Store true None ].

(** The value of the one option: [parse_args] returns only when it is
    given. *)
Definition parse_arguments (argv : list Arg) : M string :=
  parse_args parser argv ;;
  ret (match given "--name" argv with Some v => v | None => EmptyString end).

Definition make_request (url : string) (method : string) : M json :=
  request <- new_Request url None [] (Some method) ;;
  try_except
    (response <- urlopen request (Some 30) ;;
     json_loads response)
    [ (E_HTTPError, fun e =>
         error_body <- http_body e ;;
         try_except
           (error_data <- json_loads error_body ;;
            error <- py_get error_data "error" (JStr error_body) ;;
            ret (JObj [("error", error); ("status", JInt (http_code e))]))
           [ (E_JSONDecodeError, fun _ =>
                ret (JObj [("error", JStr error_body); ("status", JInt (http_code e))])) ]);
      (E_Exception, fun e => ret (JObj [("error", JStr (exn_str e))])) ].

Definition main (argv : list Arg) : M unit :=
  name <- parse_arguments argv ;;
  (* Get API URL from environment or use default *)
  api_url <- os_getenv CURSOR_AGENTS_URL default_api_url ;;
  let url := api_url ++ "/agents/" ++ name in
  (* Make HTTP request to delete agent *)
  result <- make_request url "DELETE" ;;
  failed <- py_contains "error" result ;;
  (if failed then
     eprint (json_dumps (Some 2%nat) result) ;;
     sys_exit 1
   else ret tt) ;;
  (* Output the result *)
  print (json_dumps (Some 2%nat) result).

End delete_agent.

(** *** tools/delete_queue.py *)
Module delete_queue.

Definition parser : list Declared :=
  [ option_ "--queue-name" "--queue-name/-q" Store true None ].

(** The value of the one option: [parse_args] returns only when it is
    given. *)
Definition parse_arguments (argv : list Arg) : M string :=
  parse_args parser argv ;;
  ret (match given "--queue-name" argv with Some v => v | None => EmptyString end).

Definition make_request (url : string) (method : string) : M json :=
  request <- new_Request url None [] (Some method) ;;
  try_except
    (response <- urlopen request (Some 30) ;;
     json_loads response)
    [ (E_HTTPError, fun e =>
         error_body <- http_body e ;;
         try_except
           (error_data <- json_loads error_body ;;
            error <- py_get error_data "error" (JStr error_body) ;;
            ret (JObj [("error", error); ("status", JInt (http_code e))]))
           [ (E_JSONDecodeError, fun _ =>
                ret (JObj [("error", JStr error_body); ("status", JInt (http_code e))])) ]);
      (E_Exception, fun e => ret (JObj [("error", JStr (exn_str e))])) ].

Definition main (argv : list Arg) : M unit :=
  queue_name <- parse_arguments argv ;;
  (* Get API URL from environment or use default *)
  api_url <- os_getenv CURSOR_AGENTS_URL default_api_url ;;
  let url := api_url ++ "/queues/" ++ queue_name in
  (* Make HTTP request to delete queue *)
  result <- make_request url "DELETE" ;;
  failed <- py_contains "error" result ;;
  (if failed then
     eprint (json_dumps (Some 2%nat) result) ;;
     sys_exit 1
   else ret tt) ;;
  (* Output the result *)
  print (json_dumps (Some 2%nat) result).

End delete_queue.

(** *** tools/check_task_operator_lock.py *)
Module check_task_operator_lock.

Definition make_request (url : string) (method : string) : M json :=
  try_except
    (req <- new_Request url None content_type_json (Some method) ;;
     response_data <- urlopen req None ;;
     json_loads response_data)
    [ (E_HTTPError, fun e =>
         error_body <- http_body e ;;
         let fallback := "HTTP " ++ string_of_Z (http_code e) ++ ": " ++ error_body in
         try_except
           (error_data <- json_loads error_body ;;
            error <- py_get error_data "error" (JStr fallback) ;;
            ret (JObj [("error", error)]))
           [ (E_JSONDecodeError, fun _ => ret (JObj [("error", JStr fallback)])) ]);
      (E_URLError, fun e => ret (JObj [("error", JStr ("Connection error: " ++ exn_str e))]));
      (E_Exception, fun e => ret (JObj [("error", JStr (exn_str e))])) ].

(** The parser declares no option of its own. *)
Definition main (argv : list Arg) : M unit :=
  parse_args [] argv ;;
  (* Get API URL from environment or use default *)
  api_url <- os_getenv CURSOR_AGENTS_URL default_api_url ;;
  let url := api_url ++ "/task-operator/lock" in
  (* Make HTTP request to check the lock status *)
  result <- make_request url "GET" ;;
  failed <- py_contains "error" result ;;
  (if failed then
     error <- py_getitem result "error" ;;
     shown <- py_str error ;;
     eprint ("Error: " ++ shown) ;;
     sys_exit 1
   else ret tt) ;;
  (* Print result *)
  print (json_dumps (Some 2%nat) result).

End check_task_operator_lock.

(** *** tools/clear_task_operator_lock.py *)
Module clear_task_operator_lock.

Definition make_request (url : string) (method : string) : M json :=
  try_except
    (req <- new_Request url None content_type_json (Some method) ;;
     response_data <- urlopen req None ;;
     json_loads response_data)
    [ (E_HTTPError, fun e =>
         error_body <- http_body e ;;
         let fallback := "HTTP " ++ string_of_Z (http_code e) ++ ": " ++ error_body in
         try_except
           (error_data <- json_loads error_body ;;
            error <- py_get error_data "error" (JStr fallback) ;;
            ret (JObj [("error", error)]))
           [ (E_JSONDecodeError, fun _ => ret (JObj [("error", JStr fallback)])) ]);
      (E_URLError, fun e => ret (JObj [("error", JStr ("Connection error: " ++ exn_str e))]));
      (E_Exception, fun e => ret (JObj [("error", JStr (exn_str e))])) ].

(** The parser declares no option of its own. *)
Definition main (argv : list Arg) : M unit :=
  parse_args [] argv ;;
  (* Get API URL from environment or use default *)
  api_url <- os_getenv CURSOR_AGENTS_URL default_api_url ;;
  let url := api_url ++ "/task-operator/lock" in
  (* Make HTTP request to clear the lock *)
  result <- make_request url "DELETE" ;;
  failed <- py_contains "error" result ;;
  (if failed then
     error <- py_getitem result "error" ;;
     shown <- py_str error ;;
     eprint ("Error: " ++ shown) ;;
     sys_exit 1
   else ret tt) ;;
  (* Print success message *)
  print (json_dumps (Some 2%nat) result).

End clear_task_operator_lock.

(** *** tools/disable_task_operator.py *)
Module disable_task_operator.

Definition make_request (url : string) (method : string) : M json :=
  try_except
    (req <- new_Request url None content_type_json (Some method) ;;
     response_data <- urlopen req None ;;
     json_loads response_data)
    [ (E_HTTPError, fun e =>
         error_body <- http_body e ;;
         let fallback := "HTTP " ++ string_of_Z (http_code e) ++ ": " ++ error_body in
         try_except
           (error_data <- json_loads error_body ;;
            error <- py_get error_data "error" (JStr fallback) ;;
            ret (JObj [("error", error)]))
           [ (E_JSONDecodeError, fun _ => ret (JObj [("error", JStr fallback)])) ]);
      (E_URLError, fun e => ret (JObj [("error", JStr ("Connection error: " ++ exn_str e))]));
      (E_Exception, fun e => ret (JObj [("error", JStr (exn_str e))])) ].

(** The parser declares no option of its own. *)
Definition main (argv : list Arg) : M unit :=
  parse_args [] argv ;;
  (* Get API URL from environment or use default *)
  api_url <- os_getenv CURSOR_AGENTS_URL default_api_url ;;
  let url := api_url ++ "/task-operator" in
  (* Make HTTP request to disable task operator *)
  result <- make_request url "DELETE" ;;
  failed <- py_contains "error" result ;;
  (if failed then
     error <- py_getitem result "error" ;;
     shown <- py_str error ;;
     eprint ("Error: " ++ shown) ;;
     sys_exit 1
   else ret tt) ;;
  (* Print success message *)
  print (json_dumps (Some 2%nat) result).

End disable_task_operator.

(** *** tools/enable_task_operator.py *)
Module enable_task_operator.

(** [--queue] has the default ['task-operator']. *)
Definition parser : list Declared :=
  [ option_ "--queue" "--queue/-q" Store false None ].

Definition make_request (url : string) (method : string) (data : option dict) : M json :=
  try_except
    (let data_bytes :=
       match data with
       | Some d => if dict_truthy d then Some (json_dumps None (JObj d)) else None
       | None => None
       end in
     req <- new_Request url data_bytes content_type_json (Some method) ;;
     response_data <- urlopen req None ;;
     json_loads response_data)
    [ (E_HTTPError, fun e =>
         error_body <- http_body e ;;
         let fallback := "HTTP " ++ string_of_Z (http_code e) ++ ": " ++ error_body in
         try_except
           (error_data <- json_loads error_body ;;
            error <- py_get error_data "error" (JStr fallback) ;;
            ret (JObj [("error", error)]))
           [ (E_JSONDecodeError, fun _ => ret (JObj [("error", JStr fallback)])) ]);
      (E_URLError, fun e => ret (JObj [("error", JStr ("Connection error: " ++ exn_str e))]));
      (E_Exception, fun e => ret (JObj [("error", JStr (exn_str e))])) ].

Definition main (argv : list Arg) : M unit :=
  parse_args parser argv ;;
  let queue := match given "--queue" argv with Some q => q | None => "task-operator" end in
  (* Get API URL from environment or use default *)
  api_url <- os_getenv CURSOR_AGENTS_URL default_api_url ;;
  let url := api_url ++ "/task-operator" in
  (* Build request body *)
  let body : dict := [] in
  let body := if nonempty queue then dict_set "queue" (JStr queue) body else body in
  (* Make HTTP request to enable task operator *)
  result <- make_request url "POST" (Some body) ;;
  failed <- py_contains "error" result ;;
  (if failed then
     error <- py_getitem result "error" ;;
     shown <- py_str error ;;
     eprint ("Error: " ++ shown) ;;
     sys_exit 1
   else ret tt) ;;
  (* Print success message *)
  print (json_dumps (Some 2%nat) result).

End enable_task_operator.

(** ** The commands *)

(** One invocation of one of the eleven tools, with its command line when
    the tool reads it. *)
Inductive Invocation : Type :=
| CheckTaskOperatorLock (argv : list Arg)
| ClearTaskOperatorLock (argv : list Arg)
| CreateAgent (cl : create_agent.CommandLine)
| DeleteAgent (argv : list Arg)
| DeleteQueue (argv : list Arg)
| DisableTaskOperator (argv : list Arg)
| EnableTaskOperator (argv : list Arg)
| GetAgentStatus (argv : list Arg)
| GetQueueInfo (argv : list Arg)
| ListAgents
| ListQueues.

Definition program (i : Invocation) : M unit :=
  match i with
  | CheckTaskOperatorLock argv => check_task_operator_lock.main argv
  | ClearTaskOperatorLock argv => clear_task_operator_lock.main argv
  | CreateAgent cl => create_agent.main cl
  | DeleteAgent argv => delete_agent.main argv
  | DeleteQueue argv => delete_queue.main argv
  | DisableTaskOperator argv => disable_task_operator.main argv
  | EnableTaskOperator argv => enable_task_operator.main argv
  | GetAgentStatus argv => get_agent_status.main argv
  | GetQueueInfo argv => get_queue_info.main argv
  | ListAgents => list_agents.main
  | ListQueues => list_queues.main
  end.

(** Running a tool on a host. *)
Definition execute (h : Host) (i : Invocation) : Outcome := run h (program i).

(** ** The shape the scripts share *)

(** The eleven scripts repeat one routine in two variants.  The variant of
    the agent and queue tools builds its request before the [try], waits 30
    seconds at most and reports a failure as a JSON document; the variant of
    the four task-operator tools builds the request inside the [try], gives
    [urlopen] no timeout and reports a failure as a line of text.  The
    definitions of this section state the two variants once, with the
    request as a parameter; [make_request_instances] and [program_dispatch]
    below show that every script is an instance. *)

Inductive Family : Type :=
| AgentTools
| OperatorTools.

Definition family (i : Invocation) : Family :=
  match i with
  | CheckTaskOperatorLock _ | ClearTaskOperatorLock _
  | DisableTaskOperator _ | EnableTaskOperator _ => OperatorTools
  | _ => AgentTools
  end.

(** The timeout each variant hands to [urlopen]. *)
Definition patience (fam : Family) : option Z :=
  match fam with AgentTools => Some 30 | OperatorTools => None end.

(** [make_request], for the request with the fields of [r]. *)
Definition exchange (fam : Family) (r : Request) : M json :=
  match fam with
  | AgentTools =>
      request <- new_Request (full_url r) (req_data r) (req_headers r) (req_method r) ;;
      try_except
        (response <- urlopen request (Some 30) ;;
         json_loads response)
        [ (E_HTTPError, fun e =>
             error_body <- http_body e ;;
             try_except
               (error_data <- json_loads error_body ;;
                error <- py_get error_data "error" (JStr error_body) ;;
                ret (JObj [("error", error); ("status", JInt (http_code e))]))
               [ (E_JSONDecodeError, fun _ =>
                    ret (JObj [("error", JStr error_body); ("status", JInt (http_code e))])) ]);
          (E_Exception, fun e => ret (JObj [("error", JStr (exn_str e))])) ]
  | OperatorTools =>
      try_except
        (req <- new_Request (full_url r) (req_data r) (req_headers r) (req_method r) ;;
         response_data <- urlopen req None ;;
         json_loads response_data)
        [ (E_HTTPError, fun e =>
             error_body <- http_body e ;;
             let fallback := "HTTP " ++ string_of_Z (http_code e) ++ ": " ++ error_body in
             try_except
               (error_data <- json_loads error_body ;;
                error <- py_get error_data "error" (JStr fallback) ;;
                ret (JObj [("error", error)]))
               [ (E_JSONDecodeError, fun _ => ret (JObj [("error", JStr fallback)])) ]);
          (E_URLError, fun e => ret (JObj [("error", JStr ("Connection error: " ++ exn_str e))]));
          (E_Exception, fun e => ret (JObj [("error", JStr (exn_str e))])) ]
  end.

(** The end of [main]: what is done with the result of [make_request]. *)
Definition report (fam : Family) (result : json) : M unit :=
  failed <- py_contains "error" result ;;
  (if failed then
     match fam with
     | AgentTools =>
         eprint (json_dumps (Some 2%nat) result) ;;
         sys_exit 1
     | OperatorTools =>
         error <- py_getitem result "error" ;;
         shown <- py_str error ;;
         eprint ("Error: " ++ shown) ;;
         sys_exit 1
     end
   else ret tt) ;;
  print (json_dumps (Some 2%nat) result).

Definition dispatch (fam : Family) (r : Request) : M unit :=
  result <- exchange fam r ;;
  report fam result.

(** The beginning of [main]: from the command line to the request. *)
Definition prepare (i : Invocation) : M Request :=
  match i with
  | CheckTaskOperatorLock argv =>
      parse_args [] argv ;;
      api_url <- os_getenv CURSOR_AGENTS_URL default_api_url ;;
      ret {| full_url := api_url ++ "/task-operator/lock"; req_data := None;
             req_headers := content_type_json; req_method := Some "GET" |}
  | ClearTaskOperatorLock argv =>
      parse_args [] argv ;;
      api_url <- os_getenv CURSOR_AGENTS_URL default_api_url ;;
      ret {| full_url := api_url ++ "/task-operator/lock"; req_data := None;
             req_headers := content_type_json; req_method := Some "DELETE" |}
  | CreateAgent cl =>
      args <- create_agent.parse_arguments cl ;;
      create_agent.validate_arguments args ;;
      config <- create_agent.build_agent_config args ;;
      api_url <- os_getenv CURSOR_AGENTS_URL default_api_url ;;
      ret {| full_url := api_url ++ "/agents";
             req_data := if dict_truthy config
                         then Some (json_dumps None (JObj config))
                         else None;
             req_headers := content_type_json; req_method := Some "POST" |}
  | DeleteAgent argv =>
      name <- delete_agent.parse_arguments argv ;;
      api_url <- os_getenv CURSOR_AGENTS_URL default_api_url ;;
      ret {| full_url := api_url ++ "/agents/" ++ name; req_data := None;
             req_headers := []; req_method := Some "DELETE" |}
  | DeleteQueue argv =>
      queue_name <- delete_queue.parse_arguments argv ;;
      api_url <- os_getenv CURSOR_AGENTS_URL default_api_url ;;
      ret {| full_url := api_url ++ "/queues/" ++ queue_name; req_data := None;
             req_headers := []; req_method := Some "DELETE" |}
  | DisableTaskOperator argv =>
      parse_args [] argv ;;
      api_url <- os_getenv CURSOR_AGENTS_URL default_api_url ;;
      ret {| full_url := api_url ++ "/task-operator"; req_data := None;
             req_headers := content_type_json; req_method := Some "DELETE" |}
  | EnableTaskOperator argv =>
      parse_args enable_task_operator.parser argv ;;
      let queue := match given "--queue" argv with Some q => q | None => "task-operator" end in
      api_url <- os_getenv CURSOR_AGENTS_URL default_api_url ;;
      ret {| full_url := api_url ++ "/task-operator";
             req_data := if nonempty queue
                         then Some (json_dumps None (JObj [("queue", JStr queue)]))
                         else None;
             req_headers := content_type_json; req_method := Some "POST" |}
  | GetAgentStatus argv =>
      name <- get_agent_status.parse_arguments argv ;;
      api_url <- os_getenv CURSOR_AGENTS_URL default_api_url ;;
      ret {| full_url := api_url ++ "/agents/" ++ name; req_data := None;
             req_headers := []; req_method := None |}
  | GetQueueInfo argv =>
      queue_name <- get_queue_info.parse_arguments argv ;;
      api_url <- os_getenv CURSOR_AGENTS_URL default_api_url ;;
      ret {| full_url := api_url ++ "/queues/" ++ queue_name; req_data := None;
             req_headers := []; req_method := None |}
  | ListAgents =>
      api_url <- os_getenv CURSOR_AGENTS_URL default_api_url ;;
      ret {| full_url := api_url ++ "/agents"; req_data := None;
             req_headers := []; req_method := None |}
  | ListQueues =>
      api_url <- os_getenv CURSOR_AGENTS_URL default_api_url ;;
      ret {| full_url := api_url ++ "/queues"; req_data := None;
             req_headers := []; req_method := None |}
  end.

(** ** A host for closed examples *)

(** The theorems hold on every host.  To run the scripts on concrete inputs
    the library routines need concrete values; the ones below follow CPython
    on a fragment that is enough for the examples. *)
Module Sample.

Definition is_ws (c : ascii) : bool :=
  let n := nat_of_ascii c in
  Nat.eqb n 32 || Nat.eqb n 9 || Nat.eqb n 10 || Nat.eqb n 13.

Fixpoint skip_ws (s : string) : string :=
  match s with
  | String c rest => if is_ws c then skip_ws rest else s
  | EmptyString => s
  end.

Definition is_digit (c : ascii) : bool :=
  let n := nat_of_ascii c in Nat.leb 48 n && Nat.leb n 57.

Definition digit_value (c : ascii) : Z := Z.of_nat (nat_of_ascii c - 48).

(** The longest run of digits at the head of [s], as a number, with the
    count of digits and the rest. *)
Fixpoint digits (s : string) (acc : Z) (count : nat) : Z * nat * string :=
  match s with
  | String c rest =>
      if is_digit c then digits rest (10 * acc + digit_value c) (S count)
      else (acc, count, s)
  | EmptyString => (acc, count, s)
  end.

Definition starts_float_part (s : string) : bool :=
  match s with
  | String c _ => let n := nat_of_ascii c in Nat.eqb n 46 || Nat.eqb n 101 || Nat.eqb n 69
  | EmptyString => false
  end.

(** A JSON integer: no leading zero, no fraction, no exponent. *)
Definition read_int (s : string) : option (Z * string) :=
  let (negative, body) :=
    match s with
    | String "-"%char rest => (true, rest)
    | _ => (false, s)
    end in
  match body with
  | String "0"%char rest =>
      if starts_float_part rest then None else Some (0, rest)
  | _ =>
      match digits body 0 0 with
      | (_, O, _) => None
      | (n, _, rest) =>
          if starts_float_part rest then None
          else Some (if negative then - n else n, rest)
      end
  end.

(** The character an escape sequence of two characters stands for. *)
Definition unescape (c : ascii) : option ascii :=
  let n := nat_of_ascii c in
  if Nat.eqb n 34 then Some c
  else if Nat.eqb n 92 then Some c
  else if Nat.eqb n 47 then Some c
  else if Nat.eqb n 110 then Some "010"%char
  else if Nat.eqb n 114 then Some "013"%char
  else if Nat.eqb n 116 then Some "009"%char
  else if Nat.eqb n 98 then Some "008"%char
  else if Nat.eqb n 102 then Some "012"%char
  else None.

(** The rest of a string literal, after its opening quote. *)
Fixpoint read_string (s : string) (acc : string) : option (string * string) :=
  match s with
  | EmptyString => None
  | String c rest =>
      let n := nat_of_ascii c in
      if Nat.eqb n 34 then Some (acc, rest)
      else if Nat.eqb n 92 then
        match rest with
        | String e rest' =>
            match unescape e with
            | Some x => read_string rest' (acc ++ String x EmptyString)
            | None => None
            end
        | EmptyString => None
        end
      else if Nat.ltb n 32 then None
      else read_string rest (acc ++ String c EmptyString)
  end.

Fixpoint strip (word s : string) : option string :=
  match word, s with
  | EmptyString, _ => Some s
  | String a word', String b s' => if Ascii.eqb a b then strip word' s' else None
  | String _ _, EmptyString => None
  end.

(** One JSON value at the head of [s], and the rest of [s]. *)
Fixpoint value (fuel : nat) (s : string) : option (json * string) :=
  match fuel with
  | O => None
  | S fuel' =>
      match s with
      | String c rest =>
          let n := nat_of_ascii c in
          if Nat.eqb n 34 then
            match read_string rest EmptyString with
            | Some (x, rest') => Some (JStr x, rest')
            | None => None
            end
          else if Nat.eqb n 91 then
            match skip_ws rest with
            | String "]"%char rest' => Some (JArr [], rest')
            | _ => elements fuel' rest []
            end
          else if Nat.eqb n 123 then
            match skip_ws rest with
            | String "}"%char rest' => Some (JObj [], rest')
            | _ => members fuel' rest []
            end
          else if Nat.eqb n 110 then option_map (pair JNull) (strip "null" s)
          else if Nat.eqb n 116 then option_map (pair (JBool true)) (strip "true" s)
          else if Nat.eqb n 102 then option_map (pair (JBool false)) (strip "false" s)
          else
            match read_int s with
            | Some (z, rest') => Some (JInt z, rest')
            | None => None
            end
      | EmptyString => None
      end
  end
with elements (fuel : nat) (s : string) (acc : list json) : option (json * string) :=
  match fuel with
  | O => None
  | S fuel' =>
      match value fuel' (skip_ws s) with
      | Some (x, rest) =>
          match skip_ws rest with
          | String ","%char rest' => elements fuel' rest' (acc ++ [x])%list
          | String "]"%char rest' => Some (JArr (acc ++ [x])%list, rest')
          | _ => None
          end
      | None => None
      end
  end
with members (fuel : nat) (s : string) (acc : dict) : option (json * string) :=
  match fuel with
  | O => None
  | S fuel' =>
      match skip_ws s with
      | String c rest =>
          if Nat.eqb (nat_of_ascii c) 34 then
            match read_string rest EmptyString with
            | Some (k, rest') =>
                match skip_ws rest' with
                | String ":"%char rest'' =>
                    match value fuel' (skip_ws rest'') with
                    | Some (x, rest3) =>
                        match skip_ws rest3 with
                        | String ","%char rest4 => members fuel' rest4 (dict_set k x acc)
                        | String "}"%char rest4 => Some (JObj (dict_set k x acc), rest4)
                        | _ => None
                        end
                    | None => None
                    end
                | _ => None
                end
            | None => None
            end
          else None
      | EmptyString => None
      end
  end.

(** [json.loads] on JSON documents made of objects, arrays, strings with
    the two-character escapes, integers and the three literals.  Every
    other text is reported as undecodable, with the message [json.loads]
    gives for a text that does not start with a value. *)
Definition decode (s : string) : json + string :=
  match value (2 * String.length s + 2) (skip_ws s) with
  | Some (v, rest) =>
      match skip_ws rest with
      | EmptyString => inl v
      | _ => inr "Expecting value: line 1 column 1 (char 0)"
      end
  | None => inr "Expecting value: line 1 column 1 (char 0)"
  end.

(** [repr], for strings without quotes, backslashes or control
    characters. *)
Fixpoint show (v : json) : string :=
  match v with
  | JNull => "None"
  | JBool true => "True"
  | JBool false => "False"
  | JInt z => string_of_Z z
  | JFloat text => text
  | JStr s => "'" ++ s ++ "'"
  | JArr items => "[" ++ String.concat ", " (map show items) ++ "]"
  | JObj members =>
      "{" ++ String.concat ", "
               (map (fun kv : string * json =>
                       let (k, x) := kv in "'" ++ k ++ "': " ++ show x) members)
      ++ "}"
  end.

(** [int] on plain decimal numerals with an optional sign. *)
Definition to_int (s : string) : option Z :=
  let (negative, body) :=
    match s with
    | String "-"%char rest => (true, rest)
    | String "+"%char rest => (false, rest)
    | _ => (false, s)
    end in
  match digits body 0 0 with
  | (_, O, _) => None
  | (n, _, EmptyString) => Some (if negative then - n else n)
  | _ => None
  end.

(** Whether a URL starts with a scheme: some characters other than [/] and
    [:], then [:]. *)
Fixpoint has_scheme (s : string) (seen : bool) : bool :=
  match s with
  | EmptyString => false
  | String c rest =>
      let n := nat_of_ascii c in
      if Nat.eqb n 58 then seen
      else if Nat.eqb n 47 then false
      else has_scheme rest true
  end.

Definition url_error (url : string) : option string :=
  if has_scheme url false then None
  else Some ("unknown url type: " ++ show (JStr url)).

Definition library : Python :=
  {| loads := fun s => match decode s with
                       | inl v => inl v
                       | inr msg => inr (Malformed msg)
                       end;
     repr := show;
     int_of_str := to_int;
     request_url_error := url_error;
     traceback := fun _ => "Traceback (most recent call last):" ++ newline;
     argparse_banner := "usage: tool [-h]" ++ newline ++ "tool: ";
     argparse_help := "usage: tool [-h]" ++ newline |}.

(** A host with the given environment on which every request gets the same
    answer. *)
Definition host (env : gmap string string) (answer : reply) : Host :=
  {| python := library; environ := env; network := fun _ _ => answer |}.

End Sample.

(** ** Vocabulary of the statements and of the proofs *)

(** The path of each command, from the table of the specification
    (section 4.1); a command whose required flag is missing has none. *)
Definition endpoint (i : Invocation) : option string :=
  match i with
  | CheckTaskOperatorLock _ | ClearTaskOperatorLock _ => Some "/task-operator/lock"
  | CreateAgent _ => Some "/agents"
  | DeleteAgent argv | GetAgentStatus argv =>
      option_map (fun name => "/agents/" ++ name) (given "--name" argv)
  | DeleteQueue argv | GetQueueInfo argv =>
      option_map (fun queue_name => "/queues/" ++ queue_name) (given "--queue-name" argv)
  | DisableTaskOperator _ | EnableTaskOperator _ => Some "/task-operator"
  | ListAgents => Some "/agents"
  | ListQueues => Some "/queues"
  end.

(** The parser and the command line of a command; [list_agents] and
    [list_queues] have no parser and read no argument. *)
Definition command_line (i : Invocation) : list Declared * list Arg :=
  match i with
  | CheckTaskOperatorLock argv | ClearTaskOperatorLock argv | DisableTaskOperator argv =>
      ([], argv)
  | CreateAgent cl => (create_agent.parser, cl)
  | DeleteAgent argv => (delete_agent.parser, argv)
  | DeleteQueue argv => (delete_queue.parser, argv)
  | EnableTaskOperator argv => (enable_task_operator.parser, argv)
  | GetAgentStatus argv => (get_agent_status.parser, argv)
  | GetQueueInfo argv => (get_queue_info.parser, argv)
  | ListAgents | ListQueues => ([], [])
  end.

(** What argparse makes of the command line of a command. *)
Definition parse_of (h : Host) (i : Invocation) : Parse :=
  argparse (python h) (fst (command_line i)) (snd (command_line i)).

(** The base URL as the specification resolves it: the value of the
    variable, the default when the variable is unset or empty. *)
Definition claimed_base_url (h : Host) : string :=
  match environ h !! CURSOR_AGENTS_URL with
  | Some v => if nonempty v then v else default_api_url
  | None => default_api_url
  end.

(** What a tool writes to the standard error stream for the error object
    [{'error': msg}]: the object as indented JSON for the agent and queue
    tools, a prefixed line for the task-operator tools. *)
Definition error_output (fam : Family) (msg : string) : string :=
  match fam with
  | AgentTools => json_dumps (Some 2%nat) (JObj [("error", JStr msg)]) ++ newline
  | OperatorTools => "Error: " ++ msg ++ newline
  end.

(** The message [make_request] puts in the error object for a fault of
    [urlopen]. *)
Definition fault_message (fam : Family) (f : fault) : string :=
  match f, fam with
  | UrlopenError reason, AgentTools => exn_str (URLError reason)
  | UrlopenError reason, OperatorTools => "Connection error: " ++ exn_str (URLError reason)
  | OtherFault cls msg, _ => msg
  end.

(** The message of the exception [json.loads] raises. *)
Definition refusal_str (f : refusal) : string :=
  match f with
  | Malformed msg => msg
  | Crashed _ msg => msg
  end.

(** The base URL as the scripts resolve it, with [os.getenv]. *)
Definition base_url (h : Host) : string :=
  match environ h !! CURSOR_AGENTS_URL with
  | Some v => v
  | None => default_api_url
  end.

(** The line [validate_arguments] prints when neither [--one-time] nor a
    schedule is given. *)
Definition usage_message : string :=
  "Error: Either --one-time must be true or --schedule must be provided".

(** The ways the part of a script before its request can end early: by
    [SystemExit] with status 0 after the help of argparse on the standard
    output, by [SystemExit] with status 1 or 2 after a report on the
    standard error stream, or by another exception with nothing written. *)
Definition stopped (h : Host) (p p' : Proc) (e : exn) : Prop :=
  match e with
  | SystemExit code =>
      (code = 0
       /\ p' = {| out := out p ++ argparse_help (python h); err := err p;
                  trace := trace p |})
      \/ ((code = 1 \/ code = 2) /\
          exists text, text <> EmptyString /\
            p' = {| out := out p; err := err p ++ text; trace := trace p |})
  | _ => p' = p
  end.

(** A computation that leaves the process as it found it when it returns,
    and ends early only in the ways of [stopped]. *)
Definition prelude {A} (m : M A) : Prop :=
  forall h p,
    match m h p with
    | (Normal _, p') => p' = p
    | (Raise e, p') => stopped h p p' e
    end.

(** The HTTP method each command asks for. *)
Definition verb (i : Invocation) : string :=
  match i with
  | CheckTaskOperatorLock _ | GetAgentStatus _ | GetQueueInfo _
  | ListAgents | ListQueues => "GET"
  | CreateAgent _ | EnableTaskOperator _ => "POST"
  | ClearTaskOperatorLock _ | DeleteAgent _ | DeleteQueue _ | DisableTaskOperator _ => "DELETE"
  end.

(** The commands whose [make_request] passes a [Content-Type] header. *)
Definition sends_content_type (i : Invocation) : bool :=
  match i with
  | CreateAgent _ | CheckTaskOperatorLock _ | ClearTaskOperatorLock _
  | DisableTaskOperator _ | EnableTaskOperator _ => true
  | _ => false
  end.

(** The request body of the commands other than create_agent: enable sends
    its queue, the default queue when the flag is absent and no body when
    the flag is empty; the other commands send none. *)
Definition simple_body (i : Invocation) : option string :=
  match i with
  | EnableTaskOperator argv =>
      let queue := match given "--queue" argv with Some q => q | None => "task-operator" end in
      if nonempty queue then Some (json_dumps None (JObj [("queue", JStr queue)])) else None
  | _ => None
  end.

(** The option a command with a single required option asks for: its
    first option string and the name argparse gives it. *)
Definition required_flag (i : Invocation) : option (string * string) :=
  match i with
  | DeleteAgent _ | GetAgentStatus _ => Some ("--name", "--name/-n")
  | DeleteQueue _ | GetQueueInfo _ => Some ("--queue-name", "--queue-name/-q")
  | _ => None
  end.



(** Two hosts on which the library routines behave alike, urllib gets the
    same answers, and CURSOR_AGENTS_URL has the same value or is absent
    from both. *)
Definition same_but_environment (h h' : Host) : Prop :=
  python h = python h' /\ network h = network h'
  /\ environ h !! CURSOR_AGENTS_URL = environ h' !! CURSOR_AGENTS_URL.

(** A computation that gives the same result on two such hosts. *)
Definition insensitive {A} (m : M A) : Prop :=
  forall h h' p, same_but_environment h h' -> m h p = m h' p.

(** ** Inputs of the closed examples *)
Module Inputs.

Definition quoted (s : string) : string := dquote ++ s ++ dquote.

(** [{"agents": []}] *)
Definition agents_body : string := "{" ++ quoted "agents" ++ ": []}".

(** [{"error": "X"}] *)
Definition error_body : string := "{" ++ quoted "error" ++ ": " ++ quoted "X" ++ "}".

Definition ok (body : string) : reply := Response 200 "OK" body.

Definition refused : reply := Fault (UrlopenError "[Errno 111] Connection refused").

(** An environment without the variable, and one that sets it to the empty
    string. *)
Definition unset : gmap string string := ∅.
Definition set_empty : gmap string string := {[ CURSOR_AGENTS_URL := EmptyString ]}.


(** An option, when it has a value. *)
Definition with_value (flag : string) (v : option string) : list Arg :=
  match v with Some x => [Opt flag x] | None => [] end.

(** [--name test-agent --target-url http://cursor-runner:3001/health] with,
    in this order, the values of [--headers], [--body] and [--schedule] and
    the presence of [--one-time]. *)
Definition flags (headers body schedule : option string) (one_time : bool)
    : create_agent.CommandLine :=
  ([Opt "--name" "test-agent"; Opt "--target-url" "http://cursor-runner:3001/health"]
   ++ with_value "--headers" headers
   ++ with_value "--body" body
   ++ with_value "--schedule" schedule
   ++ (if one_time then [Switch "--one-time"] else []))%list.

End Inputs.


(** * Proofs *)

(** ** Tactics *)

(** The serialised text of a value stays folded during symbolic execution. *)
Arguments json_dumps : simpl never.

Ltac unfold_ops :=
  unfold dispatch, exchange, report, argparse_show_help, argparse_error, sys_exit,
    http_body, bind, ret, raise, try_except, print, eprint, log, os_getenv, json_loads,
    new_Request, urlopen, py_contains, py_get, py_getitem, py_str, py_int in *.

Ltac unfold_mains :=
  unfold program,
    check_task_operator_lock.main, clear_task_operator_lock.main, create_agent.main,
    delete_agent.main, delete_queue.main, disable_task_operator.main,
    enable_task_operator.main, get_agent_status.main, get_queue_info.main,
    list_agents.main, list_queues.main,
    check_task_operator_lock.make_request, clear_task_operator_lock.make_request,
    create_agent.make_request, delete_agent.make_request, delete_queue.make_request,
    disable_task_operator.make_request, enable_task_operator.make_request,
    get_agent_status.make_request, get_queue_info.make_request,
    list_agents.make_request, list_queues.make_request.

(** A scrutinee on which evaluation is stuck: it contains no other test. *)
Ltac stuck_scrutinee x :=
  lazymatch x with
  | context [match _ with _ => _ end] => fail
  | context [if _ then _ else _] => fail
  | _ => idtac
  end.

Ltac split_match :=
  match goal with
  | |- context [match ?x with _ => _ end] =>
      stuck_scrutinee x; (is_var x; destruct x) || destruct x eqn:?
  end.

(** Symbolic execution: evaluate, and branch wherever the program asks the
    host a question. *)
Ltac crunch := cbn; repeat (split_match; cbn).

Ltac tidy :=
  intros;
  repeat match goal with
  | H : _ \/ _ |- _ => destruct H
  | H : _ /\ _ |- _ => destruct H
  | H : False |- _ => destruct H
  | H : (_, _) = (_, _) |- _ => injection H as H; intros; subst
  | H : _ :: _ = _ :: _ |- _ => injection H as H; intros; subst
  | H : [] = _ :: _ |- _ => discriminate H
  | H : _ :: _ = [] |- _ => discriminate H
  | H : ?x = _, H' : ?x = _ |- _ => rewrite H in H'
  | H : Fault _ = Fault _ |- _ => injection H as H; subst
  | H : Response _ _ _ = Response _ _ _ |- _ => injection H as H; intros; subst
  | H : Unread _ _ _ _ = Unread _ _ _ _ |- _ => injection H as H; intros; subst
  | H : Malformed _ = Malformed _ |- _ => injection H as H; subst
  | H : Crashed _ _ = Crashed _ _ |- _ => injection H as H; intros; subst
  | H : inl _ = inl _ |- _ => injection H as H; subst
  | H : inr _ = inr _ |- _ => injection H as H; subst
  | H : Some _ = Some _ |- _ => injection H as H; subst
  end;
  try discriminate;
  try congruence.

(** ** Strings *)

Lemma append_nonempty (s t : string) : t <> EmptyString -> s ++ t <> EmptyString.
Proof. destruct s; cbn; [auto | discriminate]. Qed.

Lemma newline_nonempty (s : string) : s ++ newline <> EmptyString.
Proof. apply append_nonempty. discriminate. Qed.

Ltac nonempty_tac :=
  repeat apply append_nonempty;
  first [ apply newline_nonempty | discriminate ].

Ltac close :=
  tidy; try (repeat split; first [ reflexivity | nonempty_tac | lia | (intros; congruence) ]).

(** ** Laws of the monad *)

Lemma bind_assoc {A B C} (m : M A) (k : A -> M B) (k' : B -> M C) h p :
  bind (bind m k) k' h p = bind m (fun a => bind (k a) k') h p.
Proof. unfold bind. destruct (m h p) as [[a|e] p']; reflexivity. Qed.

Lemma bind_ext {A B} (m : M A) (k k' : A -> M B) h p :
  (forall a h p, k a h p = k' a h p) -> bind m k h p = bind m k' h p.
Proof. intros E. unfold bind. destruct (m h p) as [[a|e] p']; auto. Qed.

Lemma bind_ext_l {A B} (m m' : M A) (k : A -> M B) h p :
  (forall h p, m h p = m' h p) -> bind m k h p = bind m' k h p.
Proof. intros E. unfold bind. rewrite E. reflexivity. Qed.

Lemma bind_ret_r {A} (m : M A) h p : bind m (fun a => ret a) h p = m h p.
Proof. unfold bind, ret. destruct (m h p) as [[a|e] p']; reflexivity. Qed.

Lemma try_except_ext {A} (body body' : M A) cls h p :
  (forall h p, body h p = body' h p) -> try_except body cls h p = try_except body' cls h p.
Proof. intros E. unfold try_except. rewrite E. reflexivity. Qed.

Lemma bind_Normal {A B} (m : M A) (k : A -> M B) h p b p' :
  bind m k h p = (Normal b, p') ->
  exists a p1, m h p = (Normal a, p1) /\ k a h p1 = (Normal b, p').
Proof.
  unfold bind. destruct (m h p) as [[a|e] p1]; [eauto | discriminate].
Qed.

Lemma isinstance_SystemExit code c : isinstance (SystemExit code) c = false.
Proof. destruct c; reflexivity. Qed.

(** ** The part of a script before its request *)

(** Argument parsing, validation and the lookup of the base URL never touch
    the network; they either return, or stop with status 1 or 2 after a
    line on the standard error stream, or stop with status 0 after the help
    of argparse, or let an exception escape. *)

Lemma prelude_ret {A} (a : A) : prelude (ret a).
Proof. intros h p. reflexivity. Qed.

Lemma prelude_bind {A B} (m : M A) (k : A -> M B) :
  prelude m -> (forall a, prelude (k a)) -> prelude (bind m k).
Proof.
  intros Hm Hk h p. unfold bind. specialize (Hm h p).
  destruct (m h p) as [[a|e] p1].
  - subst p1. apply Hk.
  - exact Hm.
Qed.

Lemma prelude_crash {A} (e : exn) :
  (forall c, e <> SystemExit c) -> prelude (@raise A e).
Proof.
  intros He h p. unfold raise. destruct e; cbn; auto.
  exfalso. eapply He. reflexivity.
Qed.

Lemma prelude_argparse_error {A} msg : prelude (@argparse_error A msg).
Proof.
  intros h p. cbn. right. split; [auto|]. eexists. split; [|reflexivity].
  apply append_nonempty, append_nonempty, newline_nonempty.
Qed.

Lemma prelude_usage_exit {A} msg : prelude (bind (eprint msg) (fun _ => @sys_exit A 1)).
Proof.
  intros h p. cbn. right. split; [auto|]. eexists. split; [|reflexivity].
  apply newline_nonempty.
Qed.

Lemma prelude_show_help {A} : prelude (@argparse_show_help A).
Proof. intros h p. cbn. left. auto. Qed.

Lemma prelude_parse_args parser argv : prelude (parse_args parser argv).
Proof.
  intros h p. unfold parse_args.
  destruct (argparse (python h) parser argv).
  - apply prelude_show_help.
  - apply (@prelude_argparse_error unit).
  - reflexivity.
Qed.

Lemma prelude_os_getenv k d : prelude (os_getenv k d).
Proof. intros h p. reflexivity. Qed.

Lemma prelude_py_int s : prelude (py_int s).
Proof. intros h p. reflexivity. Qed.

Lemma prelude_json_loads s : prelude (json_loads s).
Proof. intros h p. unfold json_loads. destruct (loads _ _) as [|[]]; reflexivity. Qed.

(** No [except] clause of the scripts catches [SystemExit], so a handler
    only ever starts from an untouched process. *)
Lemma prelude_try_except {A} (body : M A) clauses :
  prelude body ->
  Forall (fun cl => forall e, prelude (snd cl e)) clauses ->
  prelude (try_except body clauses).
Proof.
  intros Hb Hc h p. unfold try_except. specialize (Hb h p).
  destruct (body h p) as [[a|e] p1]; [exact Hb|].
  destruct (find _ clauses) as [[c k]|] eqn:Hf; [|exact Hb].
  apply find_some in Hf as [Hin Hc'].
  pose proof (proj1 (List.Forall_forall _ _) Hc _ Hin e) as Hk. cbn in Hk, Hc'.
  destruct e; cbn in Hb; try (subst p1; apply Hk).
  rewrite isinstance_SystemExit in Hc'. discriminate.
Qed.

Ltac prelude_step :=
  first
    [ apply prelude_ret
    | apply prelude_argparse_error
    | apply prelude_usage_exit
    | apply prelude_parse_args
    | apply prelude_os_getenv
    | apply prelude_py_int
    | apply prelude_json_loads
    | apply prelude_crash; congruence
    | apply prelude_bind; [|intros]
    | apply prelude_try_except;
      [| repeat (apply List.Forall_cons; [cbn [snd]; intros |]); try apply List.Forall_nil ]
    | match goal with
      | |- prelude (match ?x with _ => _ end) => destruct x
      | |- prelude (if ?b then _ else _) => destruct b
      | |- prelude (let _ := _ in _) => cbv zeta
      end ].

Lemma prelude_parse_arguments cl : prelude (create_agent.parse_arguments cl).
Proof. unfold create_agent.parse_arguments. repeat prelude_step. Qed.

Lemma prelude_validate_arguments args : prelude (create_agent.validate_arguments args).
Proof. unfold create_agent.validate_arguments. repeat prelude_step. Qed.

Lemma prelude_build_agent_config args : prelude (create_agent.build_agent_config args).
Proof. unfold create_agent.build_agent_config. repeat prelude_step. Qed.

Lemma prelude_prepare i : prelude (prepare i).
Proof.
  destruct i; unfold prepare, get_agent_status.parse_arguments,
    get_queue_info.parse_arguments, delete_agent.parse_arguments,
    delete_queue.parse_arguments.
  all: repeat first [ apply prelude_parse_arguments | apply prelude_validate_arguments
                    | apply prelude_build_agent_config | prelude_step ].
Qed.

Lemma prelude_Normal {A} (m : M A) h p a p' :
  prelude m -> m h p = (Normal a, p') -> p' = p.
Proof. intros Hm E. specialize (Hm h p). rewrite E in Hm. exact Hm. Qed.

(** ** Every script is an instance of the shared shape *)

Lemma make_request_instances h p url method data :
  let plain verb := {| full_url := url; req_data := None;
                       req_headers := []; req_method := verb |} in
  let typed payload := {| full_url := url; req_data := payload;
                          req_headers := content_type_json;
                          req_method := Some method |} in
  let payload :=
    match data with
    | Some d => if dict_truthy d then Some (json_dumps None (JObj d)) else None
    | None => None
    end in
  list_agents.make_request url h p = exchange AgentTools (plain None) h p
  /\ list_queues.make_request url h p = exchange AgentTools (plain None) h p
  /\ get_agent_status.make_request url h p = exchange AgentTools (plain None) h p
  /\ get_queue_info.make_request url h p = exchange AgentTools (plain None) h p
  /\ delete_agent.make_request url method h p = exchange AgentTools (plain (Some method)) h p
  /\ delete_queue.make_request url method h p = exchange AgentTools (plain (Some method)) h p
  /\ create_agent.make_request url method data h p = exchange AgentTools (typed payload) h p
  /\ check_task_operator_lock.make_request url method h p
     = exchange OperatorTools (typed None) h p
  /\ clear_task_operator_lock.make_request url method h p
     = exchange OperatorTools (typed None) h p
  /\ disable_task_operator.make_request url method h p
     = exchange OperatorTools (typed None) h p
  /\ enable_task_operator.make_request url method data h p
     = exchange OperatorTools (typed payload) h p.
Proof.
  cbv zeta. repeat split; try reflexivity.
  unfold create_agent.make_request, exchange.
  cbn [full_url req_data req_headers req_method].
  apply bind_ext; intros. apply try_except_ext; intros.
  apply bind_ext; intros. apply bind_ret_r.
Qed.

Lemma program_dispatch i h p :
  program i h p = bind (prepare i) (dispatch (family i)) h p.
Proof.
  destruct i; cbn [program prepare family]; unfold_mains.
  all: rewrite ?bind_assoc.
  all: try reflexivity.
  all: repeat (apply bind_ext; intros; rewrite ?bind_assoc).
  all: try reflexivity.
  - change (bind (ret ?r) ?k ?h ?p) with (k r h p).
    unfold dispatch, exchange. rewrite bind_assoc.
    cbn [full_url req_data req_headers req_method].
    apply bind_ext; intros. apply bind_ext_l; intros.
    apply try_except_ext; intros. apply bind_ext; intros. apply bind_ret_r.
  - unfold dispatch, exchange. cbn. destruct (nonempty _); reflexivity.
Qed.

(** A run either prepares its request and hands it to the shared routine,
    or stops before. *)
Lemma execute_cases h i :
  (exists r, prepare i h start = (Normal r, start)
             /\ execute h i = conclude h (dispatch (family i) r h start))
  \/ (exists e p, prepare i h start = (Raise e, p) /\ stopped h start p e
                  /\ execute h i = conclude h (Raise e, p)).
Proof.
  unfold execute, run. rewrite program_dispatch. unfold bind.
  pose proof (prelude_prepare i h start) as Hp.
  destruct (prepare i h start) as [[r|e] p].
  - subst p. left. eauto.
  - right. eauto.
Qed.

Lemma execute_stopped h i e p :
  prepare i h start = (Raise e, p) -> execute h i = conclude h (Raise e, p).
Proof.
  intros H. unfold execute, run. rewrite program_dispatch. unfold bind.
  rewrite H. reflexivity.
Qed.

(** A run that stops before its request makes no call into urllib.  It
    ends with status 0, the help on standard output and nothing on standard
    error; or with status 1 or 2, nothing on standard output and a report
    on standard error. *)
Lemma conclude_stopped h e p :
  stopped h start p e ->
  let o := conclude h (Raise e, p) in
  calls o = []
  /\ ((exit_code o = 0 /\ stdout o = argparse_help (python h)
       /\ stderr o = EmptyString /\ uncaught o = None)
      \/ (stdout o = EmptyString /\ stderr o <> EmptyString
          /\ (exit_code o = 1 \/ exit_code o = 2))).
Proof.
  destruct e; cbn; intros Hs;
    try (subst p; cbn; split; [reflexivity|]; right; repeat split; auto; nonempty_tac).
  destruct Hs as [[-> ->] | [Hc [text [Hne ->]]]]; cbn.
  - split; [reflexivity|]. left. auto.
  - split; [reflexivity|]. right. repeat split; auto.
Qed.

Ltac by_cases h i :=
  let r0 := fresh "r0" in
  let e := fresh "e" in
  let p := fresh "p" in
  let Hp := fresh "Hp" in
  let Hs := fresh "Hs" in
  let He := fresh "He" in
  destruct (execute_cases h i) as [(r0 & Hp & He) | (e & p & Hp & Hs & He)];
  rewrite He; clear He.

Ltac never_sent :=
  intros;
  match goal with
  | Hs : stopped ?h start ?p ?e, H : In _ (_ (calls (conclude ?h (Raise ?e, ?p)))) |- _ =>
      let Hc := fresh in
      destruct (conclude_stopped h e p Hs) as (Hc & _); rewrite Hc in H; destruct H
  end.

(** ** What the shared routine does *)

Lemma dispatch_calls h fam r :
  let o := conclude h (dispatch fam r h start) in
  calls o = [BuildRequest r] \/ calls o = [BuildRequest r; Urlopen r (patience fam)].
Proof.
  destruct r, fam; unfold_ops; crunch; auto.
Qed.

Lemma built_dispatch h fam r0 r :
  In r (built (calls (conclude h (dispatch fam r0 h start)))) -> r = r0.
Proof.
  destruct (dispatch_calls h fam r0) as [Hc | Hc]; cbn zeta in Hc; rewrite Hc;
    cbn; intros [H | H]; congruence || destruct H.
Qed.

Lemma sent_dispatch h fam r0 r t :
  In (r, t) (sent (calls (conclude h (dispatch fam r0 h start)))) ->
  r = r0 /\ t = patience fam.
Proof.
  destruct (dispatch_calls h fam r0) as [Hc | Hc]; cbn zeta in Hc; rewrite Hc;
    cbn; intros H; [destruct H|].
  destruct H as [H | H]; [injection H as <- <-; auto | destruct H].
Qed.


(** A 200 answer whose body decodes to a value without error marker. *)
Lemma dispatch_success h fam r r1 t reason body B :
  let o := conclude h (dispatch fam r h start) in
  In (r1, t) (sent (calls o)) ->
  network h r1 t = Response 200 reason body ->
  loads (python h) body = inl B ->
  py_in "error" B = Some false ->
  exit_code o = 0 /\ stdout o = json_dumps (Some 2%nat) B ++ newline
  /\ stderr o = EmptyString /\ uncaught o = None.
Proof.
  destruct r, fam; unfold_ops; crunch; close.
Qed.

(** A 2xx answer whose body decodes to an object with an [error] member:
    [main] takes it for the error object of [make_request]. *)
Lemma dispatch_success_error_member h fam r r1 t status reason body d x :
  let o := conclude h (dispatch fam r h start) in
  In (r1, t) (sent (calls o)) ->
  network h r1 t = Response status reason body ->
  is_2xx status = true ->
  loads (python h) body = inl (JObj d) ->
  dict_lookup "error" d = Some x ->
  exit_code o = 1 /\ uncaught o = None /\ stdout o = EmptyString
  /\ stderr o =
       match fam with
       | AgentTools => json_dumps (Some 2%nat) (JObj d) ++ newline
       | OperatorTools =>
           "Error: " ++ match x with JStr s => s | _ => repr (python h) x end ++ newline
       end.
Proof.
  destruct r, fam; unfold_ops; crunch; tidy.
  all: try match goal with
           | Hd : dict_lookup _ _ = Some _, H : py_in _ (JObj _) = _ |- _ =>
               cbn in H; unfold dict_contains in H; rewrite Hd in H; discriminate H
           end.
  all: close.
Qed.

(** A 2xx answer whose body decodes to a value on which ['error' in] has no
    answer (a number, a boolean, null): the test raises [TypeError] in
    [main], where nothing catches it. *)
Lemma dispatch_success_not_a_container h fam r r1 t status reason body B :
  let o := conclude h (dispatch fam r h start) in
  In (r1, t) (sent (calls o)) ->
  network h r1 t = Response status reason body ->
  is_2xx status = true ->
  loads (python h) body = inl B ->
  py_in "error" B = None ->
  exit_code o = 1 /\ stdout o = EmptyString
  /\ uncaught o =
       Some (TypeError ("argument of type '" ++ type_name B ++ "' is not iterable")).
Proof.
  destruct r, fam; unfold_ops; crunch; close.
Qed.

(** A fault of [urlopen]. *)
Lemma dispatch_fault h fam r r1 t f :
  let o := conclude h (dispatch fam r h start) in
  In (r1, t) (sent (calls o)) ->
  network h r1 t = Fault f ->
  exit_code o = 1 /\ uncaught o = None /\ stdout o = EmptyString
  /\ stderr o = error_output fam (fault_message fam f).
Proof.
  destruct r, fam; unfold_ops; crunch; close.
Qed.

(** A 2xx answer whose body [json.loads] rejects. *)
Lemma dispatch_undecodable h fam r r1 t status reason body f :
  let o := conclude h (dispatch fam r h start) in
  In (r1, t) (sent (calls o)) ->
  network h r1 t = Response status reason body ->
  is_2xx status = true ->
  loads (python h) body = inr f ->
  exit_code o = 1 /\ uncaught o = None /\ stdout o = EmptyString
  /\ stderr o = error_output fam (refusal_str f).
Proof.
  destruct r, fam; unfold_ops; crunch; close.
Qed.

(** In that case [make_request] returns the error object with the message
    of the exception. *)
Lemma exchange_undecodable h p fam url payload fields verb status reason body f :
  let r := {| full_url := url; req_data := payload;
              req_headers := fields; req_method := verb |} in
  request_url_error (python h) url = None ->
  network h r (patience fam) = Response status reason body ->
  is_2xx status = true ->
  loads (python h) body = inr f ->
  fst (exchange fam r h p) = Normal (JObj [("error", JStr (refusal_str f))]).
Proof.
  intros r Hu Hn Hs Hl. subst r. destruct fam; unfold_ops; cbn in *.
  all: rewrite Hu; cbn; rewrite Hn, Hs; cbn; rewrite Hl; destruct f; reflexivity.
Qed.

(** An error status with a body that is a JSON object holding an [error]
    member: the member is what the tool reports. *)
Lemma dispatch_http_error_field h fam r r1 t status reason body d x :
  let o := conclude h (dispatch fam r h start) in
  In (r1, t) (sent (calls o)) ->
  network h r1 t = Response status reason body ->
  is_2xx status = false ->
  loads (python h) body = inl (JObj d) ->
  dict_lookup "error" d = Some x ->
  exit_code o = 1 /\ uncaught o = None /\ stdout o = EmptyString
  /\ stderr o =
       match fam with
       | AgentTools =>
           json_dumps (Some 2%nat) (JObj [("error", x); ("status", JInt status)]) ++ newline
       | OperatorTools =>
           "Error: " ++ match x with JStr s => s | _ => repr (python h) x end ++ newline
       end.
Proof.
  destruct r, fam; unfold_ops; unfold dict_get; crunch; close.
Qed.

(** An error status with a body that is no JSON document, or a JSON object
    without an [error] member: the raw body and the status are reported. *)
Lemma dispatch_http_error_raw h fam r r1 t status reason body :
  let o := conclude h (dispatch fam r h start) in
  In (r1, t) (sent (calls o)) ->
  network h r1 t = Response status reason body ->
  is_2xx status = false ->
  (exists msg, loads (python h) body = inr (Malformed msg))
  \/ (exists d, loads (python h) body = inl (JObj d) /\ dict_lookup "error" d = None) ->
  exit_code o = 1 /\ uncaught o = None /\ stdout o = EmptyString
  /\ stderr o =
       match fam with
       | AgentTools =>
           json_dumps (Some 2%nat) (JObj [("error", JStr body); ("status", JInt status)])
           ++ newline
       | OperatorTools =>
           "Error: " ++ ("HTTP " ++ string_of_Z status ++ ": " ++ body) ++ newline
       end.
Proof.
  intros o Hin Hn Hs [[msg Hl] | [d [Hl Hd]]]; revert Hin Hn Hs Hl; subst o.
  - destruct r, fam; unfold_ops; unfold dict_get; crunch; close.
  - revert Hd. destruct r, fam; unfold_ops; unfold dict_get; crunch; close.
Qed.

(** An error status with a body that is a JSON document but not an object:
    [error_data.get] raises [AttributeError] inside the handler, and nothing
    catches it. *)
Lemma dispatch_http_error_not_object h fam r r1 t status reason body v :
  let o := conclude h (dispatch fam r h start) in
  In (r1, t) (sent (calls o)) ->
  network h r1 t = Response status reason body ->
  is_2xx status = false ->
  loads (python h) body = inl v ->
  isinstance_dict v = false ->
  let e := AttributeError ("'" ++ type_name v ++ "' object has no attribute 'get'") in
  exit_code o = 1 /\ uncaught o = Some e /\ stdout o = EmptyString
  /\ stderr o = traceback (python h) e ++ exn_line e ++ newline.
Proof.
  destruct r, fam; unfold_ops; crunch; close.
Qed.

(** Any status of the 2xx class counts as success. *)
Lemma dispatch_success_2xx h fam r r1 t status reason body B :
  let o := conclude h (dispatch fam r h start) in
  In (r1, t) (sent (calls o)) ->
  network h r1 t = Response status reason body ->
  is_2xx status = true ->
  loads (python h) body = inl B ->
  py_in "error" B = Some false ->
  exit_code o = 0 /\ stdout o = json_dumps (Some 2%nat) B ++ newline
  /\ stderr o = EmptyString /\ uncaught o = None.
Proof.
  destruct r, fam; unfold_ops; crunch; close.
Qed.

(** An answer that is no 2xx response with its body ends the run with
    status 1. *)
Lemma dispatch_failure h fam r r1 t answer :
  let o := conclude h (dispatch fam r h start) in
  In (r1, t) (sent (calls o)) ->
  network h r1 t = answer ->
  match answer with
  | Response status _ _ => is_2xx status = false
  | _ => True
  end ->
  exit_code o = 1 /\ stdout o = EmptyString /\ stderr o <> EmptyString.
Proof.
  destruct r, fam; unfold_ops; crunch; tidy.
  all: repeat split; auto; try discriminate; try congruence; try nonempty_tac.
Qed.

(** A 2xx body with an error marker that is not an object: a list with the
    element ["error"] or a string with the substring [error]. *)
Lemma dispatch_marker_outside_object h fam r r1 t status reason body B :
  let o := conclude h (dispatch fam r h start) in
  In (r1, t) (sent (calls o)) ->
  network h r1 t = Response status reason body ->
  is_2xx status = true ->
  loads (python h) body = inl B ->
  py_in "error" B = Some true ->
  isinstance_dict B = false ->
  exit_code o = 1 /\ stdout o = EmptyString
  /\ match fam with
     | AgentTools =>
         uncaught o = None /\ stderr o = json_dumps (Some 2%nat) B ++ newline
     | OperatorTools =>
         exists msg, uncaught o = Some (TypeError msg)
     end.
Proof.
  destruct r, fam; unfold_ops; crunch; tidy.
  all: try (cbn in *; discriminate).
  all: repeat split; eauto.
Qed.

(** The URL check of [urllib.request.Request] decides whether a request
    goes out. *)
Lemma dispatch_url_rejected h fam r msg :
  request_url_error (python h) (full_url r) = Some msg ->
  let o := conclude h (dispatch fam r h start) in
  calls o = [BuildRequest r] /\ exit_code o = 1 /\ stdout o = EmptyString
  /\ match fam with
     | AgentTools =>
         uncaught o = Some (ValueError msg)
         /\ stderr o = traceback (python h) (ValueError msg)
                       ++ exn_line (ValueError msg) ++ newline
     | OperatorTools =>
         uncaught o = None /\ stderr o = "Error: " ++ msg ++ newline
     end.
Proof.
  intros Hu. destruct r, fam; unfold_ops; cbn in *; rewrite Hu; cbn; auto 10.
Qed.

Lemma dispatch_url_accepted h fam r :
  request_url_error (python h) (full_url r) = None ->
  calls (conclude h (dispatch fam r h start))
  = [BuildRequest r; Urlopen r (patience fam)].
Proof.
  intros Hu. destruct r, fam; unfold_ops; cbn in *; rewrite Hu; crunch; reflexivity.
Qed.

(** A 2xx answer whose body cannot be read or decoded: the exception is
    raised inside the [try] and ends as an error object. *)
Lemma dispatch_unread_success h fam r r1 t status reason cls msg :
  let o := conclude h (dispatch fam r h start) in
  In (r1, t) (sent (calls o)) ->
  network h r1 t = Unread status reason cls msg ->
  is_2xx status = true ->
  exit_code o = 1 /\ uncaught o = None /\ stdout o = EmptyString
  /\ stderr o = error_output fam msg.
Proof.
  destruct r, fam; unfold_ops; crunch; close.
Qed.

(** An error status whose body cannot be read or decoded: the exception is
    raised in the handler of [HTTPError], outside any [try]. *)
Lemma dispatch_unread_error h fam r r1 t status reason cls msg :
  let o := conclude h (dispatch fam r h start) in
  In (r1, t) (sent (calls o)) ->
  network h r1 t = Unread status reason cls msg ->
  is_2xx status = false ->
  let e := OtherError cls msg in
  exit_code o = 1 /\ uncaught o = Some e /\ stdout o = EmptyString
  /\ stderr o = traceback (python h) e ++ exn_line e ++ newline.
Proof.
  destruct r, fam; unfold_ops; crunch; close.
Qed.

(** An error status whose body makes [json.loads] raise another exception
    than [JSONDecodeError]: the inner [try] lets it through. *)
Lemma dispatch_http_error_crashed h fam r r1 t status reason body cls msg :
  let o := conclude h (dispatch fam r h start) in
  In (r1, t) (sent (calls o)) ->
  network h r1 t = Response status reason body ->
  is_2xx status = false ->
  loads (python h) body = inr (Crashed cls msg) ->
  let e := OtherError cls msg in
  exit_code o = 1 /\ uncaught o = Some e /\ stdout o = EmptyString
  /\ stderr o = traceback (python h) e ++ exn_line e ++ newline.
Proof.
  destruct r, fam; unfold_ops; crunch; close.
Qed.



(** ** What argparse does *)

Lemma given_In flag argv v : given flag argv = Some v -> In (Opt flag v) argv.
Proof.
  induction argv as [|a rest IH]; cbn; [discriminate|].
  destruct (given flag rest) as [v'|].
  - intros E. injection E as ->. right. apply IH. reflexivity.
  - destruct a as [|f w| | |]; try discriminate.
    destruct (String.eqb f flag) eqn:Ef; [|discriminate].
    apply String.eqb_eq in Ef as ->. intros E. injection E as ->. left. reflexivity.
Qed.

(** When the walk reaches the end, no argument asked for help and none
    was rejected. *)
Lemma scan_Proceed py parser argv a :
  scan py parser argv = Proceed -> In a argv -> a <> Help /\ rejection py parser a = None.
Proof.
  induction argv as [|b rest IH]; cbn; [intros _ []|].
  destruct b as [|f v|f|m|tok]; [intros E; discriminate E| | | |].
  1: destruct (rejection py parser (Opt f v)) eqn:Hr; [intros E; discriminate E|].
  2: destruct (rejection py parser (Switch f)) eqn:Hr; [intros E; discriminate E|].
  3: destruct (rejection py parser (Broken m)) eqn:Hr; [intros E; discriminate E|].
  4: destruct (rejection py parser (Stray tok)) eqn:Hr; [intros E; discriminate E|].
  all: intros Hs [<- | Hin]; [split; [discriminate | exact Hr] | exact (IH Hs Hin)].
Qed.

Lemma argparse_Proceed py parser argv :
  argparse py parser argv = Proceed ->
  scan py parser argv = Proceed
  /\ missing parser argv = [] /\ unrecognized parser argv = [].
Proof.
  unfold argparse. destruct (scan py parser argv); try discriminate.
  destruct (missing parser argv); [|discriminate].
  destruct (unrecognized parser argv); [auto | discriminate].
Qed.

(** The three ways [parse_args] ends. *)
Lemma parse_args_cases parser argv h p :
  match argparse (python h) parser argv with
  | ShowHelp =>
      parse_args parser argv h p =
        (Raise (SystemExit 0),
         {| out := out p ++ argparse_help (python h); err := err p; trace := trace p |})
  | UsageError msg =>
      parse_args parser argv h p =
        (Raise (SystemExit 2),
         {| out := out p;
            err := err p ++ argparse_banner (python h) ++ "error: " ++ msg ++ newline;
            trace := trace p |})
  | Proceed => parse_args parser argv h p = (Normal tt, p)
  end.
Proof. unfold parse_args. destruct (argparse (python h) parser argv); reflexivity. Qed.

Lemma parse_args_Normal parser argv h p u p' :
  parse_args parser argv h p = (Normal u, p') ->
  argparse (python h) parser argv = Proceed.
Proof.
  pose proof (parse_args_cases parser argv h p) as H.
  destruct (argparse (python h) parser argv); rewrite H; [discriminate.. | reflexivity].
Qed.

(** A required option with a value has one once argparse has returned. *)
Lemma required_given py flag names argv :
  argparse py [option_ flag names Store true None] argv = Proceed ->
  exists v, given flag argv = Some v.
Proof.
  intros H. apply argparse_Proceed in H as (_ & H & _).
  unfold missing, supplied in H. cbn in H.
  destruct (given flag argv); [eauto | discriminate H].
Qed.

(** ** The arguments of create_agent *)

(** How [parse_arguments] ends, by what argparse makes of the command
    line. *)
Lemma parse_arguments_cases cl h p :
  match argparse (python h) create_agent.parser cl with
  | ShowHelp =>
      create_agent.parse_arguments cl h p =
        (Raise (SystemExit 0),
         {| out := out p ++ argparse_help (python h); err := err p; trace := trace p |})
  | UsageError msg =>
      create_agent.parse_arguments cl h p =
        (Raise (SystemExit 2),
         {| out := out p;
            err := err p ++ argparse_banner (python h) ++ "error: " ++ msg ++ newline;
            trace := trace p |})
  | Proceed =>
      exists args, create_agent.parse_arguments cl h p = (Normal args, p)
  end.
Proof.
  pose proof (parse_args_cases create_agent.parser cl h p) as H.
  destruct (argparse (python h) create_agent.parser cl);
    unfold create_agent.parse_arguments; unfold bind at 1; rewrite H; try reflexivity.
  unfold_ops. destruct (create_agent.cl_timeout cl); cbn; eauto.
Qed.

Lemma parse_arguments_Proceed cl h p args p' :
  create_agent.parse_arguments cl h p = (Normal args, p') ->
  argparse (python h) create_agent.parser cl = Proceed.
Proof.
  pose proof (parse_arguments_cases cl h p) as H.
  destruct (argparse (python h) create_agent.parser cl); try rewrite H; try discriminate.
  reflexivity.
Qed.

Lemma parse_arguments_Normal cl h p args p' :
  create_agent.parse_arguments cl h p = (Normal args, p') ->
  create_agent.one_time args = create_agent.cl_one_time cl
  /\ create_agent.schedule args = create_agent.cl_schedule cl
  /\ create_agent.body args = create_agent.cl_body cl
  /\ create_agent.queue args = create_agent.cl_queue cl
  /\ create_agent.headers args =
       match create_agent.cl_headers cl with Some v => v | None => "{}" end.
Proof.
  unfold create_agent.parse_arguments. unfold bind at 1.
  destruct (parse_args create_agent.parser cl h p) as [[u|e] p1]; [|discriminate].
  unfold_ops. destruct (create_agent.cl_timeout cl); cbn.
  all: intros E; injection E as <- <-; cbn; auto 10.
Qed.

(** The values of the options that argparse checks: the required ones are
    there, and the value of [--timeout] is the one [int] returns. *)
Lemma parse_arguments_values cl h p args p' :
  create_agent.parse_arguments cl h p = (Normal args, p') ->
  create_agent.cl_name cl = Some (create_agent.name args)
  /\ create_agent.cl_target_url cl = Some (create_agent.target_url args)
  /\ create_agent.method args =
       match create_agent.cl_method cl with Some m => m | None => "POST" end
  /\ match create_agent.cl_timeout cl with
     | Some t => int_of_str (python h) t = Some (create_agent.timeout args)
     | None => create_agent.timeout args = 30000
     end.
Proof.
  intros H. pose proof (parse_arguments_Proceed _ _ _ _ _ H) as Ha.
  apply argparse_Proceed in Ha as (Hscan & Hmiss & _).
  revert H. unfold create_agent.parse_arguments. unfold bind at 1.
  destruct (parse_args create_agent.parser cl h p) as [[u|e] p1]; [|discriminate].
  unfold missing, supplied in Hmiss. cbn in Hmiss.
  fold (create_agent.cl_name cl) in Hmiss. fold (create_agent.cl_target_url cl) in Hmiss.
  unfold_ops.
  destruct (create_agent.cl_timeout cl) as [t|] eqn:Ht; cbn.
  - apply given_In in Ht. destruct (scan_Proceed _ _ _ _ Hscan Ht) as (_ & Hr).
    cbn in Hr. destruct (int_of_str (python h) t) as [z|]; [|discriminate Hr].
    intros E; injection E as <- <-; cbn.
    destruct (create_agent.cl_name cl), (create_agent.cl_target_url cl);
      try discriminate Hmiss; auto.
  - intros E; injection E as <- <-; cbn.
    destruct (create_agent.cl_name cl), (create_agent.cl_target_url cl);
      try discriminate Hmiss; auto.
Qed.

(** argparse is the only way [parse_arguments] ends early. *)
Lemma parse_arguments_Raise cl h p e p' :
  create_agent.parse_arguments cl h p = (Raise e, p') ->
  e = SystemExit 0 \/ e = SystemExit 2.
Proof.
  pose proof (parse_arguments_cases cl h p) as H.
  destruct (argparse (python h) create_agent.parser cl).
  - rewrite H. intros E. injection E as <- _. auto.
  - rewrite H. intros E. injection E as <- _. auto.
  - destruct H as (args & ->). discriminate.
Qed.


(** The [ValueError] raised inside the [try] is not a [JSONDecodeError]:
    the [except] clause lets it through. *)
Lemma validate_headers_not_object args h p v :
  create_agent.one_time args = true \/ truthy (create_agent.schedule args) = true ->
  loads (python h) (create_agent.headers args) = inl v ->
  isinstance_dict v = false ->
  create_agent.validate_arguments args h p =
    (Raise (ValueError "Headers must be a JSON object"), p).
Proof.
  intros H1 H2 H3. unfold create_agent.validate_arguments. unfold_ops.
  rewrite H2, H3.
  destruct H1 as [-> | ->]; cbn; [reflexivity|].
  rewrite andb_false_r. reflexivity.
Qed.

Lemma validate_Normal_schedule args h p u p' :
  create_agent.validate_arguments args h p = (Normal u, p') ->
  create_agent.one_time args = true \/ truthy (create_agent.schedule args) = true.
Proof.
  unfold create_agent.validate_arguments. unfold bind at 1.
  destruct (create_agent.one_time args); [auto|].
  destruct (truthy (create_agent.schedule args)); [auto|].
  cbn. discriminate.
Qed.

(** After a successful validation [build_agent_config] returns, and its
    keys are those the three tests of the function select. *)
Lemma build_after_validate args h p u p' :
  create_agent.validate_arguments args h p = (Normal u, p') ->
  exists config,
    create_agent.build_agent_config args h p = (Normal config, p)
    /\ keys config =
         (["name"; "targetUrl"; "method"; "headers"; "oneTime"; "timeout"]
          ++ (if truthy (create_agent.body args) then ["body"] else [])
          ++ (if negb (create_agent.one_time args) && truthy (create_agent.schedule args)
              then ["schedule"] else [])
          ++ (if truthy (create_agent.queue args) then ["queue"] else []))%list.
Proof.
  unfold create_agent.validate_arguments, create_agent.build_agent_config; unfold_ops.
  destruct args as [n u0 m hd b s o t q]; cbn.
  destruct o, s as [[|]|]; cbn.
  all: destruct (loads (python h) hd) as [[]|[]]; cbn; try discriminate.
  all: destruct b as [[|]|]; cbn.
  all: try (destruct (loads (python h) (String _ _)) as [|[]]; cbn; try discriminate).
  all: destruct q as [[|]|]; cbn.
  all: intros _; eexists; split; reflexivity.
Qed.


Lemma prepare_validate_Raise cl h p args p1 e p' :
  create_agent.parse_arguments cl h p = (Normal args, p1) ->
  create_agent.validate_arguments args h p1 = (Raise e, p') ->
  prepare (CreateAgent cl) h p = (Raise e, p').
Proof.
  intros H1 H2. cbn [prepare]. unfold bind at 1. rewrite H1.
  unfold bind at 1. rewrite H2. reflexivity.
Qed.

Lemma prepare_create_agent cl h p r p' :
  prepare (CreateAgent cl) h p = (Normal r, p') ->
  exists args config,
    create_agent.parse_arguments cl h p = (Normal args, p)
    /\ create_agent.validate_arguments args h p = (Normal tt, p)
    /\ create_agent.build_agent_config args h p = (Normal config, p)
    /\ r = {| full_url := base_url h ++ "/agents";
              req_data := if dict_truthy config
                          then Some (json_dumps None (JObj config)) else None;
              req_headers := content_type_json;
              req_method := Some "POST" |}.
Proof.
  cbn [prepare]. intros H.
  apply bind_Normal in H as (args & p1 & H1 & H).
  pose proof (prelude_Normal _ _ _ _ _ (prelude_parse_arguments cl) H1) as ->.
  apply bind_Normal in H as ([] & p2 & H2 & H).
  pose proof (prelude_Normal _ _ _ _ _ (prelude_validate_arguments args) H2) as ->.
  apply bind_Normal in H as (config & p3 & H3 & H).
  pose proof (prelude_Normal _ _ _ _ _ (prelude_build_agent_config args) H3) as ->.
  cbn in H. injection H as <- <-. eauto 10.
Qed.

(** ** The argument phase of every command *)

(** How the argument phase ends when argparse ends the run, and that it
    returns a request otherwise (create_agent has its own checks after
    argparse). *)
Lemma prepare_by_parse i h p :
  match parse_of h i with
  | ShowHelp =>
      prepare i h p =
        (Raise (SystemExit 0),
         {| out := out p ++ argparse_help (python h); err := err p; trace := trace p |})
  | UsageError msg =>
      prepare i h p =
        (Raise (SystemExit 2),
         {| out := out p;
            err := err p ++ argparse_banner (python h) ++ "error: " ++ msg ++ newline;
            trace := trace p |})
  | Proceed =>
      match i with
      | CreateAgent cl =>
          exists args, create_agent.parse_arguments cl h p = (Normal args, p)
      | _ => exists r, prepare i h p = (Normal r, p)
      end
  end.
Proof.
  unfold parse_of.
  destruct i as [argv|argv|cl|argv|argv|argv|argv|argv|argv| |];
    cbn [command_line fst snd].
  3: { pose proof (parse_arguments_cases cl h p) as H.
       destruct (argparse (python h) create_agent.parser cl); try exact H.
       all: cbn [prepare]; unfold bind at 1; rewrite H; reflexivity. }
  9-10: cbn; eauto.
  all: match goal with
       | |- context [argparse _ ?parser ?argv] =>
           pose proof (parse_args_cases parser argv h p) as H;
           destruct (argparse (python h) parser argv)
       end.
  all: cbn [prepare];
       unfold delete_agent.parse_arguments, delete_queue.parse_arguments,
         get_agent_status.parse_arguments, get_queue_info.parse_arguments;
       rewrite ?bind_assoc; unfold bind at 1; rewrite H; try reflexivity.
  all: cbn; eauto.
Qed.

(** The request each command prepares: its URL is the base URL followed by
    the path of the command, and among the task-operator tools only check
    lock asks for GET. *)
Lemma prepare_plan i h p r p' :
  prepare i h p = (Normal r, p') ->
  (exists path, endpoint i = Some path /\ full_url r = base_url h ++ path)
  /\ (get_method r = "GET" ->
      (exists argv, i = CheckTaskOperatorLock argv) \/ family i = AgentTools).
Proof.
  intros H.
  destruct i as [argv|argv|cl|argv|argv|argv|argv|argv|argv| |].
  3: { apply prepare_create_agent in H as (? & ? & ? & ? & ? & ->).
       cbn. split; eauto. }
  9-10: cbn in H; injection H as <- _; cbn; split; eauto.
  all: cbn [prepare] in H;
       unfold delete_agent.parse_arguments, delete_queue.parse_arguments,
         get_agent_status.parse_arguments, get_queue_info.parse_arguments in H;
       rewrite ?bind_assoc in H;
       apply bind_Normal in H as ([] & p1 & Ha & H);
       apply parse_args_Normal in Ha.
  all: try (apply required_given in Ha as (v & Hv)).
  all: cbn in H; try rewrite Hv in H; injection H as <- _.
  all: cbn; try rewrite Hv; cbn; split; eauto; try discriminate.
  all: destruct (nonempty _); cbn; discriminate.
Qed.

(** ** The checks of create_agent, continued *)




Lemma validate_invalid_headers args h p msg :
  create_agent.one_time args = true \/ truthy (create_agent.schedule args) = true ->
  loads (python h) (create_agent.headers args) = inr (Malformed msg) ->
  create_agent.validate_arguments args h p =
    (Raise (SystemExit 1),
     {| out := out p;
        err := err p ++ ("Error: Invalid JSON in --headers: " ++ msg) ++ newline;
        trace := trace p |}).
Proof.
  intros H1 H2. unfold create_agent.validate_arguments. unfold_ops.
  rewrite H2.
  destruct H1 as [-> | ->]; cbn; [reflexivity|].
  rewrite andb_false_r. reflexivity.
Qed.

Lemma validate_invalid_body args h p d b msg :
  create_agent.one_time args = true \/ truthy (create_agent.schedule args) = true ->
  loads (python h) (create_agent.headers args) = inl (JObj d) ->
  create_agent.body args = Some b ->
  nonempty b = true ->
  loads (python h) b = inr (Malformed msg) ->
  create_agent.validate_arguments args h p =
    (Raise (SystemExit 1),
     {| out := out p;
        err := err p ++ ("Error: Invalid JSON in --body: " ++ msg) ++ newline;
        trace := trace p |}).
Proof.
  intros H1 H2 H3 H4 H5. unfold create_agent.validate_arguments. unfold_ops.
  rewrite H2, H3, H4, H5.
  destruct H1 as [-> | ->]; cbn; [reflexivity|].
  rewrite andb_false_r. reflexivity.
Qed.

(** The values [build_agent_config] puts under each key. *)
Lemma build_agent_config_values args h p config p' :
  create_agent.build_agent_config args h p = (Normal config, p') ->
  dict_lookup "name" config = Some (JStr (create_agent.name args))
  /\ dict_lookup "targetUrl" config = Some (JStr (create_agent.target_url args))
  /\ dict_lookup "method" config = Some (JStr (create_agent.method args))
  /\ (exists hd, loads (python h) (create_agent.headers args) = inl hd
                 /\ dict_lookup "headers" config = Some hd)
  /\ dict_lookup "oneTime" config = Some (JBool (create_agent.one_time args))
  /\ dict_lookup "timeout" config = Some (JInt (create_agent.timeout args))
  /\ match create_agent.body args with
     | Some b =>
         if nonempty b
         then exists v, loads (python h) b = inl v /\ dict_lookup "body" config = Some v
         else dict_lookup "body" config = None
     | None => dict_lookup "body" config = None
     end
  /\ dict_lookup "schedule" config =
       match create_agent.schedule args with
       | Some s => if negb (create_agent.one_time args) && nonempty s
                   then Some (JStr s) else None
       | None => None
       end
  /\ dict_lookup "queue" config =
       match create_agent.queue args with
       | Some q => if nonempty q then Some (JStr q) else None
       | None => None
       end.
Proof.
  unfold create_agent.build_agent_config; unfold_ops.
  destruct args as [n u m hd b s o t q]; cbn.
  destruct (loads (python h) hd) as [hd'|[]]; cbn; try discriminate.
  destruct b as [b|]; [destruct (nonempty b) eqn:Hb; cbn|].
  1: destruct (loads (python h) b) as [v|[]] eqn:Hl; cbn; try discriminate.
  all: destruct s as [s|]; [destruct o, (nonempty s); cbn|].
  all: destruct q as [q|]; [destruct (nonempty q); cbn|].
  all: intros E; injection E as <- <-; cbn.
  all: repeat split; eauto.
Qed.

(** ** The argument phase of every command, continued *)



(** The method, the headers and the body of the request a command prepares. *)
Lemma prepare_request i h p r p' :
  prepare i h p = (Normal r, p') ->
  get_method r = verb i
  /\ req_headers r = (if sends_content_type i then content_type_json else [])
  /\ ((forall cl, i <> CreateAgent cl) -> req_data r = simple_body i).
Proof.
  intros H.
  destruct i as [argv|argv|cl|argv|argv|argv|argv|argv|argv| |].
  3: { apply prepare_create_agent in H as (? & ? & ? & ? & ? & ->).
       cbn. repeat split. intros Hn. exfalso. eapply Hn. reflexivity. }
  9-10: cbn in H; injection H as <- _; cbn; repeat split; auto.
  all: cbn [prepare] in H;
       unfold delete_agent.parse_arguments, delete_queue.parse_arguments,
         get_agent_status.parse_arguments, get_queue_info.parse_arguments in H;
       rewrite ?bind_assoc in H;
       apply bind_Normal in H as ([] & p1 & _ & H).
  all: cbn in H; injection H as <- _.
  all: cbn; repeat split; auto.
Qed.



(** ** The environment *)

(** The scripts read one environment variable: a computation built from the
    operations of the scripts gives the same result on two hosts that agree
    on CURSOR_AGENTS_URL. *)

Lemma insensitive_const {A} (m : M A) :
  (forall h h' p, python h = python h' -> network h = network h' -> m h p = m h' p) ->
  insensitive m.
Proof. intros H h h' p (Hp & Hn & _). apply H; assumption. Qed.

Lemma insensitive_bind {A B} (m : M A) (k : A -> M B) :
  insensitive m -> (forall a, insensitive (k a)) -> insensitive (bind m k).
Proof.
  intros Hm Hk h h' p Hh. unfold bind. rewrite (Hm h h' p Hh).
  destruct (m h' p) as [[a|e] p1]; [apply Hk; exact Hh | reflexivity].
Qed.

Lemma insensitive_try_except {A} (body : M A) clauses :
  insensitive body ->
  Forall (fun cl => forall e, insensitive (snd cl e)) clauses ->
  insensitive (try_except body clauses).
Proof.
  intros Hb Hc h h' p Hh. unfold try_except. rewrite (Hb h h' p Hh).
  destruct (body h' p) as [[a|e] p1]; [reflexivity|].
  destruct (find _ clauses) as [[c k]|] eqn:Hf; [|reflexivity].
  apply find_some in Hf as [Hin _].
  exact (proj1 (List.Forall_forall _ _) Hc _ Hin e h h' p1 Hh).
Qed.

Lemma insensitive_os_getenv d : insensitive (os_getenv CURSOR_AGENTS_URL d).
Proof. intros h h' p (_ & _ & He). unfold os_getenv. rewrite He. reflexivity. Qed.

Lemma insensitive_parse_args parser argv : insensitive (parse_args parser argv).
Proof.
  intros h h' p (Hp & _). unfold parse_args. rewrite Hp.
  destruct (argparse (python h') parser argv); unfold_ops; cbn; rewrite ?Hp; reflexivity.
Qed.

Ltac insensitive_leaf :=
  apply insensitive_const;
  let Hp := fresh in let Hn := fresh in
  intros ? ? ? Hp Hn; unfold_ops; cbn; rewrite ?Hp, ?Hn; crunch; reflexivity.

Ltac insensitive_step :=
  first
    [ apply insensitive_os_getenv
    | apply insensitive_parse_args
    | apply insensitive_bind; [|intros]
    | apply insensitive_try_except;
      [| repeat (apply List.Forall_cons; [cbn [snd]; intros |]); try apply List.Forall_nil ]
    | match goal with
      | |- insensitive (match ?x with _ => _ end) => destruct x
      | |- insensitive (if ?b then _ else _) => destruct b
      | |- insensitive (let _ := _ in _) => cbv zeta
      end
    | insensitive_leaf ].

Lemma insensitive_prepare i : insensitive (prepare i).
Proof.
  destruct i; unfold prepare, create_agent.parse_arguments,
    create_agent.validate_arguments, create_agent.build_agent_config,
    get_agent_status.parse_arguments, get_queue_info.parse_arguments,
    delete_agent.parse_arguments, delete_queue.parse_arguments.
  all: repeat insensitive_step.
Qed.

Lemma insensitive_dispatch fam r : insensitive (dispatch fam r).
Proof.
  destruct fam; unfold dispatch, exchange, report, new_Request, urlopen.
  all: repeat insensitive_step.
Qed.

(** ** The claims *)

(** C1, amended.  For every command: if the HTTP call succeeds with status
    200 and the body decodes to a JSON value B for which the test
    ['error' in B] is false (an object without the key [error], an array
    without the element ["error"], a string without the substring [error]),
    the tool exits with code 0 and writes to standard output exactly the
    form of B pretty-printed with a 2-space indent, followed by the newline
    of [print]; nothing goes to standard error. *)
Theorem success_prints_response h i r t reason body B :
  In (r, t) (sent (calls (execute h i))) ->
  network h r t = Response 200 reason body ->
  loads (python h) body = inl B ->
  py_in "error" B = Some false ->
  exit_code (execute h i) = 0
  /\ stdout (execute h i) = json_dumps (Some 2%nat) B ++ newline
  /\ stderr (execute h i) = EmptyString
  /\ uncaught (execute h i) = None.
Proof.
  by_cases h i.
  - apply dispatch_success.
  - never_sent.
Qed.

(** X3.  Why C1 needs its last hypothesis: for every command, a 2xx body
    that decodes to an object with an [error] member is reported as a
    failure.  The tool exits with code 1 and prints nothing on standard
    output; the agent and queue tools print the whole object to standard
    error, the task-operator tools the line [Error: <member>]. *)
Lemma success_with_error_member_reported h i r t status reason body d x :
  In (r, t) (sent (calls (execute h i))) ->
  network h r t = Response status reason body ->
  is_2xx status = true ->
  loads (python h) body = inl (JObj d) ->
  dict_lookup "error" d = Some x ->
  exit_code (execute h i) = 1 /\ uncaught (execute h i) = None
  /\ stdout (execute h i) = EmptyString
  /\ stderr (execute h i) =
       match family i with
       | AgentTools => json_dumps (Some 2%nat) (JObj d) ++ newline
       | OperatorTools =>
           "Error: " ++ match x with JStr s => s | _ => repr (python h) x end ++ newline
       end.
Proof.
  by_cases h i.
  - apply dispatch_success_error_member.
  - never_sent.
Qed.

(** X4.  What C1 leaves aside: for every command, a 2xx body that decodes
    to a number, a boolean or null makes the test ['error' in result] of
    [main] raise; the [TypeError] escapes, the tool exits with code 1 and
    prints nothing on standard output. *)
Lemma success_not_a_container_escapes h i r t status reason body B :
  In (r, t) (sent (calls (execute h i))) ->
  network h r t = Response status reason body ->
  is_2xx status = true ->
  loads (python h) body = inl B ->
  py_in "error" B = None ->
  exit_code (execute h i) = 1 /\ stdout (execute h i) = EmptyString
  /\ uncaught (execute h i) =
       Some (TypeError ("argument of type '" ++ type_name B ++ "' is not iterable")).
Proof.
  by_cases h i.
  - apply dispatch_success_not_a_container.
  - never_sent.
Qed.

(** C2, amended.  For every command, the URL of every request the tool
    builds is the base URL followed by the path of the command, where the
    base URL is the value of CURSOR_AGENTS_URL whenever the variable is set
    (verbatim, the empty string included) and [http://cursor-agents:3002]
    when it is unset. *)
Theorem base_url_from_environment h i r :
  In r (built (calls (execute h i))) ->
  exists path,
    endpoint i = Some path
    /\ (forall v, environ h !! CURSOR_AGENTS_URL = Some v -> full_url r = v ++ path)
    /\ (environ h !! CURSOR_AGENTS_URL = None -> full_url r = default_api_url ++ path).
Proof.
  by_cases h i.
  - intros Hin.
    apply prepare_plan in Hp as [(path & Hpath & Hurl) _].
    apply built_dispatch in Hin as ->.
    exists path. split; [exact Hpath|].
    unfold base_url in Hurl.
    split; [intros v Hv | intros Hv]; rewrite Hv in Hurl; exact Hurl.
  - never_sent.
Qed.


(** C4, amended.  For every invocation of create_agent that argparse
    accepts and that has [--one-time] or a non-empty [--schedule], if the
    value of [--headers] decodes to a JSON value that is not an object, the
    process exits with code 1 before any request is built or sent, and the
    message [Headers must be a JSON object] reaches standard error as the
    last line of the interpreter's report of the [ValueError], which
    [validate_arguments] does not catch. *)
Theorem headers_not_object_rejected h cl args v :
  fst (create_agent.parse_arguments cl h start) = Normal args ->
  create_agent.one_time args = true \/ truthy (create_agent.schedule args) = true ->
  loads (python h) (create_agent.headers args) = inl v ->
  isinstance_dict v = false ->
  let o := execute h (CreateAgent cl) in
  let e := ValueError "Headers must be a JSON object" in
  exit_code o = 1 /\ calls o = [] /\ stdout o = EmptyString
  /\ uncaught o = Some e
  /\ stderr o = traceback (python h) e ++ "ValueError: Headers must be a JSON object" ++ newline.
Proof.
  intros Hparse H1 H2 H3. cbv zeta.
  pose proof (prelude_parse_arguments cl h start) as Hq.
  destruct (create_agent.parse_arguments cl h start) as [[args'|e'] p] eqn:Hparse';
    [|discriminate].
  cbn in Hparse. injection Hparse as ->. subst p.
  rewrite (execute_stopped _ _ _ _
             (prepare_validate_Raise _ _ _ _ _ _ _ Hparse'
                (validate_headers_not_object args h start v H1 H2 H3))).
  cbn. auto 10.
Qed.

(** C5, amended.  For every valid create_agent invocation (argparse and
    [validate_arguments] both accept it), the assembled payload has exactly
    the keys name, targetUrl, method, headers, oneTime, timeout, plus body
    iff [--body] has a non-empty value, plus schedule iff [--one-time] is
    absent and [--schedule] has a non-empty value (which validity requires
    whenever [--one-time] is absent; with [--one-time] the schedule is
    omitted even when [--schedule] is given), plus queue iff [--queue] has
    a non-empty value; and this payload, serialised, is the body of every
    request the tool builds. *)
Theorem payload_keys h cl args :
  fst (create_agent.parse_arguments cl h start) = Normal args ->
  fst (create_agent.validate_arguments args h start) = Normal tt ->
  exists config,
    fst (create_agent.build_agent_config args h start) = Normal config
    /\ keys config =
         (["name"; "targetUrl"; "method"; "headers"; "oneTime"; "timeout"]
          ++ (if truthy (create_agent.cl_body cl) then ["body"] else [])
          ++ (if create_agent.cl_one_time cl then [] else ["schedule"])
          ++ (if truthy (create_agent.cl_queue cl) then ["queue"] else []))%list
    /\ (In "body" (keys config) <-> truthy (create_agent.cl_body cl) = true)
    /\ (In "schedule" (keys config) <->
        create_agent.cl_one_time cl = false /\ truthy (create_agent.cl_schedule cl) = true)
    /\ (In "queue" (keys config) <-> truthy (create_agent.cl_queue cl) = true)
    /\ (forall r, In r (built (calls (execute h (CreateAgent cl)))) ->
        req_data r = Some (json_dumps None (JObj config))).
Proof.
  intros Hparse Hvalid.
  pose proof (prelude_parse_arguments cl h start) as Hq.
  destruct (create_agent.parse_arguments cl h start) as [[args'|e'] p] eqn:Hparse';
    [|discriminate].
  cbn in Hparse. injection Hparse as ->. subst p.
  pose proof (parse_arguments_Normal _ _ _ _ _ Hparse') as (Ho & Hs & Hb & Hqu & _).
  pose proof (prelude_validate_arguments args h start) as Hq.
  destruct (create_agent.validate_arguments args h start) as [[[]|e'] p] eqn:Hvalid';
    [|discriminate].
  subst p.
  pose proof (validate_Normal_schedule _ _ _ _ _ Hvalid') as Hsched.
  destruct (build_after_validate _ _ _ _ _ Hvalid') as (config & Hbuild & Hkeys).
  exists config. rewrite Hbuild. rewrite Ho, Hs, Hb, Hqu in *.
  assert (Hkeys' : keys config =
         (["name"; "targetUrl"; "method"; "headers"; "oneTime"; "timeout"]
          ++ (if truthy (create_agent.cl_body cl) then ["body"] else [])
          ++ (if create_agent.cl_one_time cl then [] else ["schedule"])
          ++ (if truthy (create_agent.cl_queue cl) then ["queue"] else []))%list).
  { rewrite Hkeys. revert Hsched.
    destruct (create_agent.cl_one_time cl); cbn; [reflexivity|].
    intros [Hsched | ->]; [discriminate | reflexivity]. }
  split; [reflexivity|]. split; [exact Hkeys'|].
  split; [|split; [|split]].
  1-3: rewrite Hkeys'; clear Hkeys Hkeys'; revert Hsched;
       destruct (truthy (create_agent.cl_body cl)),
                (create_agent.cl_one_time cl),
                (truthy (create_agent.cl_queue cl));
       cbn; intros; split; intros; tidy; auto 10.
  - intros r. by_cases h (CreateAgent cl).
    + intros Hin.
      apply prepare_create_agent in Hp as (args1 & config1 & Hp1 & Hp2 & Hp3 & ->).
      rewrite Hparse' in Hp1. injection Hp1 as <-.
      rewrite Hbuild in Hp3. injection Hp3 as <-.
      assert (Ht : dict_truthy config = true).
      { destruct config; [discriminate Hkeys' | reflexivity]. }
      rewrite Ht in Hin. apply built_dispatch in Hin as ->. reflexivity.
    + never_sent.
Qed.

(** The three cases of an answer with an error status, for every command
    (C6 holds in the first two and fails in the third). *)

(** X6.  For every command, an answer with a status outside 2xx whose body
    decodes to an object with an [error] member: the tool exits with code
    1, prints nothing on standard output, and reports the member on
    standard error, the agent and queue tools as the indented object
    [{error, status}], the task-operator tools as the line
    [Error: <member>]. *)
Lemma http_error_field_reported h i r t status reason body d x :
  In (r, t) (sent (calls (execute h i))) ->
  network h r t = Response status reason body ->
  is_2xx status = false ->
  loads (python h) body = inl (JObj d) ->
  dict_lookup "error" d = Some x ->
  exit_code (execute h i) = 1 /\ uncaught (execute h i) = None
  /\ stdout (execute h i) = EmptyString
  /\ stderr (execute h i) =
       match family i with
       | AgentTools =>
           json_dumps (Some 2%nat) (JObj [("error", x); ("status", JInt status)]) ++ newline
       | OperatorTools =>
           "Error: " ++ match x with JStr s => s | _ => repr (python h) x end ++ newline
       end.
Proof.
  by_cases h i.
  - apply dispatch_http_error_field.
  - never_sent.
Qed.

(** X7.  For every command, an answer with a status outside 2xx whose body
    is no JSON document, or an object without an [error] member: the tool
    exits with code 1, prints nothing on standard output, and reports the
    raw body on standard error, the agent and queue tools as the [error]
    of the indented object [{error, status}], the task-operator tools as
    the line [Error: HTTP <status>: <body>]. *)
Lemma http_error_raw_body_reported h i r t status reason body :
  In (r, t) (sent (calls (execute h i))) ->
  network h r t = Response status reason body ->
  is_2xx status = false ->
  (exists msg, loads (python h) body = inr (Malformed msg))
  \/ (exists d, loads (python h) body = inl (JObj d) /\ dict_lookup "error" d = None) ->
  exit_code (execute h i) = 1 /\ uncaught (execute h i) = None
  /\ stdout (execute h i) = EmptyString
  /\ stderr (execute h i) =
       match family i with
       | AgentTools =>
           json_dumps (Some 2%nat) (JObj [("error", JStr body); ("status", JInt status)])
           ++ newline
       | OperatorTools =>
           "Error: " ++ ("HTTP " ++ string_of_Z status ++ ": " ++ body) ++ newline
       end.
Proof.
  by_cases h i.
  - apply dispatch_http_error_raw.
  - never_sent.
Qed.

(** X8.  For every command, an answer with a status outside 2xx whose body
    decodes to a JSON value that is not an object (an array, a string, a
    number, a boolean, null): the handler calls [error_data.get] on it, the
    [AttributeError] escapes, and the tool exits with code 1 with the
    report of the interpreter on standard error and nothing on standard
    output. *)
Lemma http_error_not_object_escapes h i r t status reason body v :
  In (r, t) (sent (calls (execute h i))) ->
  network h r t = Response status reason body ->
  is_2xx status = false ->
  loads (python h) body = inl v ->
  isinstance_dict v = false ->
  let e := AttributeError ("'" ++ type_name v ++ "' object has no attribute 'get'") in
  exit_code (execute h i) = 1 /\ uncaught (execute h i) = Some e
  /\ stdout (execute h i) = EmptyString
  /\ stderr (execute h i) = traceback (python h) e ++ exn_line e ++ newline.
Proof.
  by_cases h i.
  - apply dispatch_http_error_not_object.
  - never_sent.
Qed.

(** C6, at the failing input.  [list_agents] against a server that answers
    500 with the body [[1,2]], a JSON document that is not an object: the
    handler of [HTTPError] calls [error_data.get] on a list, the
    [AttributeError] escapes, and the raw body never reaches standard
    error. *)
Theorem http_error_with_array_body_crashes :
  let h := Sample.host Inputs.unset (Response 500 "Internal Server Error" "[1,2]") in
  let o := execute h ListAgents in
  exit_code o = 1
  /\ uncaught o = Some (AttributeError "'list' object has no attribute 'get'")
  /\ stdout o = EmptyString
  /\ str_contains "[1,2]" (stderr o) = false.
Proof. vm_compute. auto. Qed.

(** What holds of C7: when [urlopen] raises instead of handing back an
    answer, or when the body of an answer with a 2xx status cannot be read
    or decoded, the exception is caught inside [make_request]; the tool
    reports its message (X24). *)

(** X24.  For every command, when the HTTP call fails before urllib hands
    back an answer ([urlopen] raises: connection refused, DNS failure,
    timeout), or while the body of an answer with a 2xx status is read or
    decoded, the tool exits with code 1, no exception escapes, nothing is
    printed on standard output, and standard error holds the error object
    of the failure: its message as indented JSON for the agent and queue
    tools, the line [Error: <message>] for the task-operator tools, where
    the message is the text of the exception (prefixed with
    [Connection error: ] by the task-operator tools for a [URLError]). *)
Lemma transport_failure_reported h i r t msg :
  In (r, t) (sent (calls (execute h i))) ->
  (exists f, network h r t = Fault f /\ msg = fault_message (family i) f)
  \/ (exists status reason cls,
        network h r t = Unread status reason cls msg /\ is_2xx status = true) ->
  exit_code (execute h i) = 1
  /\ uncaught (execute h i) = None
  /\ stdout (execute h i) = EmptyString
  /\ stderr (execute h i) = error_output (family i) msg.
Proof.
  by_cases h i.
  - intros Hin [(f & Hn & ->) | (status & reason & cls & Hn & Hs)].
    + eapply dispatch_fault; eassumption.
    + eapply dispatch_unread_success; eassumption.
  - never_sent.
Qed.

(** C7, at the failing input.  [list_agents] against a server that answers
    500 and then stalls: the read of the body times out in the handler of
    [HTTPError], where no [try] covers it; the [TimeoutError] escapes and no
    connection-error message is printed. *)
Theorem error_body_timeout_escapes :
  let stalled := Unread 500 "Internal Server Error"
                   "TimeoutError" "The read operation timed out" in
  let o := execute (Sample.host Inputs.unset stalled) ListAgents in
  sent (calls o) =
    [({| full_url := "http://cursor-agents:3002/agents"; req_data := None;
         req_headers := []; req_method := None |}, Some 30)]
  /\ exit_code o = 1
  /\ uncaught o = Some (OtherError "TimeoutError" "The read operation timed out")
  /\ stdout o = EmptyString
  /\ stderr o = "Traceback (most recent call last):" ++ newline
                ++ "TimeoutError: The read operation timed out" ++ newline.
Proof. vm_compute. auto. Qed.

(** C8, amended.  Every command that issues a GET request other than check
    lock (get agent status, get queue info, list agents, list queues) hands
    [urlopen] a timeout of 30 seconds; check lock hands it no timeout. *)
Theorem read_timeouts h i r t :
  In (r, t) (sent (calls (execute h i))) ->
  get_method r = "GET" ->
  ((exists argv, i = CheckTaskOperatorLock argv) /\ t = None)
  \/ ((forall argv, i <> CheckTaskOperatorLock argv) /\ t = Some 30).
Proof.
  by_cases h i.
  - intros Hin Hget. apply sent_dispatch in Hin as [-> ->].
    apply prepare_plan in Hp as [_ Hm].
    destruct (Hm Hget) as [(argv & ->) | Hfam]; [left; eauto|].
    right. rewrite Hfam. split; [|reflexivity].
    intros argv ->. discriminate Hfam.
  - never_sent.
Qed.


(** C10.  For every command, if the server answers with a 2xx status and a
    body that [json.loads] rejects (the empty body is one), the decoding
    exception does not escape: [make_request] returns the error object with
    the message of the exception, and the tool prints it to standard error
    (as indented JSON, or as the line [Error: <message>] for the
    task-operator tools), prints nothing on standard output and exits with
    code 1. *)
Theorem undecodable_success_body_reported h i r t status reason body f :
  In (r, t) (sent (calls (execute h i))) ->
  network h r t = Response status reason body ->
  is_2xx status = true ->
  loads (python h) body = inr f ->
  exit_code (execute h i) = 1
  /\ uncaught (execute h i) = None
  /\ stdout (execute h i) = EmptyString
  /\ stderr (execute h i) = error_output (family i) (refusal_str f).
Proof.
  by_cases h i.
  - apply dispatch_undecodable.
  - never_sent.
Qed.

(** * Further properties of the scripts *)

(** X1.  For every command, an answer with any status of the 2xx class (201
    and 204 as well as 200) whose body decodes to a JSON value B for which
    the test ['error' in B] is false is a success: the tool exits with code
    0, prints B with a 2-space indent on standard output and leaves standard
    error empty. *)
Theorem any_2xx_prints_response h i r t status reason body B :
  In (r, t) (sent (calls (execute h i))) ->
  network h r t = Response status reason body ->
  is_2xx status = true ->
  loads (python h) body = inl B ->
  py_in "error" B = Some false ->
  exit_code (execute h i) = 0
  /\ stdout (execute h i) = json_dumps (Some 2%nat) B ++ newline
  /\ stderr (execute h i) = EmptyString
  /\ uncaught (execute h i) = None.
Proof.
  by_cases h i.
  - apply dispatch_success_2xx.
  - never_sent.
Qed.


(** X5.  A 2xx body that carries the error marker without being an object (an
    array with the element ["error"], a string with the substring [error])
    is a failure with exit code 1 and nothing on standard output: the agent
    and queue tools print the document to standard error; the task-operator
    tools index it with ['error'] and end on the [TypeError]. *)
Theorem marker_outside_object h i r t status reason body B :
  In (r, t) (sent (calls (execute h i))) ->
  network h r t = Response status reason body ->
  is_2xx status = true ->
  loads (python h) body = inl B ->
  py_in "error" B = Some true ->
  isinstance_dict B = false ->
  exit_code (execute h i) = 1 /\ stdout (execute h i) = EmptyString
  /\ match family i with
     | AgentTools =>
         uncaught (execute h i) = None
         /\ stderr (execute h i) = json_dumps (Some 2%nat) B ++ newline
     | OperatorTools =>
         exists msg, uncaught (execute h i) = Some (TypeError msg)
     end.
Proof.
  by_cases h i.
  - apply dispatch_marker_outside_object.
  - never_sent.
Qed.

(** X23.  For every command, an answer with a status outside the 2xx class
    ends the run with exit code 1, nothing on standard output and a report
    on standard error, whatever the body holds. *)
Theorem error_status_exits_1 h i r t status reason body :
  In (r, t) (sent (calls (execute h i))) ->
  network h r t = Response status reason body ->
  is_2xx status = false ->
  exit_code (execute h i) = 1 /\ stdout (execute h i) = EmptyString
  /\ stderr (execute h i) <> EmptyString.
Proof.
  by_cases h i.
  - intros Hin Hn H2.
    exact (dispatch_failure h (family i) r0 r t _ Hin Hn H2).
  - never_sent.
Qed.

(** X9.  When urllib rejects the URL of the request (a base URL without a
    scheme), no request goes out and the tool exits with code 1 with
    nothing on standard output.  The agent and queue tools build the
    request outside their [try]: the [ValueError] escapes.  The
    task-operator tools build it inside: they print [Error: <message>]. *)
Theorem rejected_url_sends_nothing h i r msg :
  In r (built (calls (execute h i))) ->
  request_url_error (python h) (full_url r) = Some msg ->
  sent (calls (execute h i)) = []
  /\ exit_code (execute h i) = 1 /\ stdout (execute h i) = EmptyString
  /\ match family i with
     | AgentTools =>
         uncaught (execute h i) = Some (ValueError msg)
         /\ stderr (execute h i) = traceback (python h) (ValueError msg)
                                   ++ exn_line (ValueError msg) ++ newline
     | OperatorTools =>
         uncaught (execute h i) = None
         /\ stderr (execute h i) = "Error: " ++ msg ++ newline
     end.
Proof.
  by_cases h i.
  - intros Hin Hu. apply built_dispatch in Hin as ->.
    destruct (dispatch_url_rejected h (family i) r0 msg Hu) as (Hc & H).
    cbv zeta in *. rewrite Hc. split; [reflexivity | exact H].
  - never_sent.
Qed.

(** X10.  When urllib accepts the URL, the tool builds its request once and
    sends this very request once, whatever the answer: the calls into
    urllib are the construction followed by one [urlopen]. *)
Theorem accepted_url_sends_once h i r :
  In r (built (calls (execute h i))) ->
  request_url_error (python h) (full_url r) = None ->
  calls (execute h i) = [BuildRequest r; Urlopen r (patience (family i))].
Proof.
  by_cases h i.
  - intros Hin Hu. apply built_dispatch in Hin as ->.
    apply dispatch_url_accepted, Hu.
  - never_sent.
Qed.

(** X11.  The HTTP method of every request: GET for check lock, get agent
    status, get queue info, list agents and list queues; POST for create
    agent and enable; DELETE for clear lock, delete agent, delete queue and
    disable. *)
Theorem request_method h i r :
  In r (built (calls (execute h i))) -> get_method r = verb i.
Proof.
  by_cases h i.
  - intros Hin. apply built_dispatch in Hin as ->.
    apply prepare_request in Hp. apply Hp.
  - never_sent.
Qed.

(** X12.  The header [Content-Type: application/json] is sent by create
    agent and by the four task-operator tools, body or not; the other six
    tools pass no header. *)
Theorem content_type_header h i r :
  In r (built (calls (execute h i))) ->
  req_headers r = if sends_content_type i then content_type_json else [].
Proof.
  by_cases h i.
  - intros Hin. apply built_dispatch in Hin as ->.
    apply prepare_request in Hp. apply Hp.
  - never_sent.
Qed.

(** X13.  Apart from create agent, only enable sends a body: the object
    with the one key [queue], whose value is the flag or the default
    [task-operator]; with an empty [--queue] enable posts no body at all. *)
Theorem request_body h i r :
  (forall cl, i <> CreateAgent cl) ->
  In r (built (calls (execute h i))) ->
  req_data r = simple_body i.
Proof.
  intros Hi. by_cases h i.
  - intros Hin. apply built_dispatch in Hin as ->.
    apply prepare_request in Hp. apply Hp, Hi.
  - never_sent.
Qed.

(** X14.  The timeout of every [urlopen] call: 30 seconds for the seven
    agent and queue tools, none for the four task-operator tools. *)
Theorem timeout_of_every_command h i r t :
  In (r, t) (sent (calls (execute h i))) ->
  t = match i with
      | CheckTaskOperatorLock _ | ClearTaskOperatorLock _
      | DisableTaskOperator _ | EnableTaskOperator _ => None
      | _ => Some 30
      end.
Proof.
  by_cases h i.
  - intros Hin. apply sent_dispatch in Hin as [_ ->]. destruct i; reflexivity.
  - never_sent.
Qed.


(** X16.  delete agent and get agent status without [--name], delete queue
    and get queue info without [--queue-name], on a command line that does
    not ask for help and holds no argument that argparse refuses where it
    stands: the tool exits with code 2 before any call into urllib, and the
    last line of standard error names the missing option. *)
Theorem missing_required_flag h i flag names :
  required_flag i = Some (flag, names) ->
  scan (python h) (fst (command_line i)) (snd (command_line i)) = Proceed ->
  given flag (snd (command_line i)) = None ->
  exit_code (execute h i) = 2 /\ calls (execute h i) = []
  /\ stdout (execute h i) = EmptyString
  /\ stderr (execute h i) =
       argparse_banner (python h)
       ++ "error: " ++ ("the following arguments are required: " ++ names) ++ newline.
Proof.
  intros Hf Hs Hg.
  assert (Hu : parse_of h i =
               UsageError ("the following arguments are required: " ++ names)).
  { unfold parse_of, argparse. rewrite Hs.
    destruct i; cbn in Hf; try discriminate Hf; injection Hf as <- <-;
      cbn in Hg |- *; unfold missing, supplied; cbn; rewrite Hg; reflexivity. }
  pose proof (prepare_by_parse i h start) as Hc. rewrite Hu in Hc.
  rewrite (execute_stopped _ _ _ _ Hc). cbn. auto.
Qed.


(** X17.  create agent with a [--headers] value that is no JSON document
    (the schedule check passed): the tool prints
    [Error: Invalid JSON in --headers: <message of the decoder>] to
    standard error and exits with code 1 before any call into urllib. *)
Theorem invalid_headers_json_rejected h cl args msg :
  fst (create_agent.parse_arguments cl h start) = Normal args ->
  create_agent.one_time args = true \/ truthy (create_agent.schedule args) = true ->
  loads (python h) (create_agent.headers args) = inr (Malformed msg) ->
  let o := execute h (CreateAgent cl) in
  exit_code o = 1 /\ calls o = [] /\ stdout o = EmptyString /\ uncaught o = None
  /\ stderr o = ("Error: Invalid JSON in --headers: " ++ msg) ++ newline.
Proof.
  intros Hparse H1 H2. cbv zeta.
  pose proof (prelude_parse_arguments cl h start) as Hq.
  destruct (create_agent.parse_arguments cl h start) as [[args'|e'] p] eqn:Hparse';
    [|discriminate].
  cbn in Hparse. injection Hparse as ->. subst p.
  rewrite (execute_stopped _ _ _ _
             (prepare_validate_Raise _ _ _ _ _ _ _ Hparse'
                (validate_invalid_headers args h start msg H1 H2))).
  cbn. auto 10.
Qed.

(** X18.  create agent with valid headers and a non-empty [--body] value
    that is no JSON document: the tool prints
    [Error: Invalid JSON in --body: <message of the decoder>] to standard
    error and exits with code 1 before any call into urllib. *)
Theorem invalid_body_json_rejected h cl args d b msg :
  fst (create_agent.parse_arguments cl h start) = Normal args ->
  create_agent.one_time args = true \/ truthy (create_agent.schedule args) = true ->
  loads (python h) (create_agent.headers args) = inl (JObj d) ->
  create_agent.body args = Some b ->
  nonempty b = true ->
  loads (python h) b = inr (Malformed msg) ->
  let o := execute h (CreateAgent cl) in
  exit_code o = 1 /\ calls o = [] /\ stdout o = EmptyString /\ uncaught o = None
  /\ stderr o = ("Error: Invalid JSON in --body: " ++ msg) ++ newline.
Proof.
  intros Hparse H1 H2 H3 H4 H5. cbv zeta.
  pose proof (prelude_parse_arguments cl h start) as Hq.
  destruct (create_agent.parse_arguments cl h start) as [[args'|e'] p] eqn:Hparse';
    [|discriminate].
  cbn in Hparse. injection Hparse as ->. subst p.
  rewrite (execute_stopped _ _ _ _
             (prepare_validate_Raise _ _ _ _ _ _ _ Hparse'
                (validate_invalid_body args h start d b msg H1 H2 H3 H4 H5))).
  cbn. auto 10.
Qed.


(** X20.  The payload create agent sends: the request body is the
    serialisation of an object whose [name] and [targetUrl] are the flag
    values, whose [method] is the flag or POST, whose [headers] is the
    decoded flag or the empty object of the default, whose [oneTime] is the
    presence of [--one-time], whose [timeout] is the converted flag or
    30000, whose [body] is the decoded non-empty [--body], whose [schedule]
    is the [--schedule] string unless [--one-time] is given, and whose
    [queue] is the non-empty [--queue]. *)
Theorem payload_values h cl r :
  In r (built (calls (execute h (CreateAgent cl)))) ->
  exists config,
    req_data r = Some (json_dumps None (JObj config))
    /\ option_map JStr (create_agent.cl_name cl) = dict_lookup "name" config
    /\ option_map JStr (create_agent.cl_target_url cl) = dict_lookup "targetUrl" config
    /\ dict_lookup "method" config =
         Some (JStr match create_agent.cl_method cl with Some m => m | None => "POST" end)
    /\ (exists hd,
          loads (python h)
            match create_agent.cl_headers cl with Some v => v | None => "{}" end = inl hd
          /\ dict_lookup "headers" config = Some hd)
    /\ dict_lookup "oneTime" config = Some (JBool (create_agent.cl_one_time cl))
    /\ match create_agent.cl_timeout cl with
       | Some t => exists z, int_of_str (python h) t = Some z
                             /\ dict_lookup "timeout" config = Some (JInt z)
       | None => dict_lookup "timeout" config = Some (JInt 30000)
       end
    /\ match create_agent.cl_body cl with
       | Some b =>
           if nonempty b
           then exists v, loads (python h) b = inl v /\ dict_lookup "body" config = Some v
           else dict_lookup "body" config = None
       | None => dict_lookup "body" config = None
       end
    /\ dict_lookup "schedule" config =
         (if create_agent.cl_one_time cl then None
          else option_map JStr (create_agent.cl_schedule cl))
    /\ dict_lookup "queue" config =
         match create_agent.cl_queue cl with
         | Some q => if nonempty q then Some (JStr q) else None
         | None => None
         end.
Proof.
  by_cases h (CreateAgent cl).
  - intros Hin. apply built_dispatch in Hin as ->.
    apply prepare_create_agent in Hp as (args & config & Hp1 & Hp2 & Hp3 & ->).
    pose proof (parse_arguments_values _ _ _ _ _ Hp1) as (Hn & Hu & Hm & Ht).
    pose proof (parse_arguments_Normal _ _ _ _ _ Hp1) as (Ho & Hs & Hb & Hqu & Hh).
    pose proof (validate_Normal_schedule _ _ _ _ _ Hp2) as Hsched.
    pose proof (build_agent_config_values _ _ _ _ _ Hp3)
      as (V1 & V2 & V3 & V4 & V5 & V6 & V7 & V8 & V9).
    rewrite Ho, Hs, Hb, Hqu, Hh, Hm in *.
    exists config. cbn [req_data].
    assert (Hd : dict_truthy config = true).
    { destruct config; [discriminate V1 | reflexivity]. }
    rewrite Hd, Hn, Hu, V1, V2. cbn [option_map].
    repeat (split; [solve [auto] |]).
    split; [|split; [exact V7 | split; [|exact V9]]].
    + destruct (create_agent.cl_timeout cl); [eauto | congruence].
    + rewrite V8. destruct (create_agent.cl_one_time cl); cbn.
      * destruct (create_agent.cl_schedule cl); reflexivity.
      * destruct Hsched as [Hsched | Hsched]; [discriminate Hsched|].
        destruct (create_agent.cl_schedule cl) as [s|]; [|discriminate Hsched].
        cbn in Hsched. rewrite Hsched. reflexivity.
  - never_sent.
Qed.


(** X22.  The scripts consult the environment through one call only,
    [os.getenv('CURSOR_AGENTS_URL', ...)]: two runs of a command in which
    the library routines behave alike (json, argparse, and urllib with the
    answers it gets) and CURSOR_AGENTS_URL has the same value, or is absent
    from both, end in the same way.  (Other variables can matter only
    through the libraries: the proxy settings urllib reads, the width
    argparse formats its texts to.) *)
Theorem only_one_variable_read h h' i :
  same_but_environment h h' -> execute h i = execute h' i.
Proof.
  intros Hh. unfold execute, run. rewrite !program_dispatch.
  rewrite (insensitive_bind _ _ (insensitive_prepare i)
             (insensitive_dispatch (family i)) h h' start Hh).
  destruct Hh as (Hp & _). unfold conclude. rewrite Hp. reflexivity.
Qed.

(** ** Closed instances *)

Lemma success_prints_response_witness :
  let o := execute (Sample.host Inputs.unset (Inputs.ok Inputs.agents_body)) ListAgents in
  exit_code o = 0
  /\ stdout o = json_dumps (Some 2%nat) (JObj [("agents", JArr [])]) ++ newline
  /\ stderr o = EmptyString
  /\ uncaught o = None.
Proof.
  apply (success_prints_response
           (Sample.host Inputs.unset (Inputs.ok Inputs.agents_body)) ListAgents
           {| full_url := "http://cursor-agents:3002/agents"; req_data := None;
              req_headers := []; req_method := None |}
           (Some 30) "OK" Inputs.agents_body (JObj [("agents", JArr [])]));
    vm_compute; auto.
Defined.

(** C1 as stated fails: [list_agents] receives status 200 with the body
    [{"error": "X"}], which decodes to a JSON object, and exits with code 1
    with nothing on standard output. *)
Lemma success_with_error_key_fails :
  let h := Sample.host Inputs.unset (Inputs.ok Inputs.error_body) in
  let o := execute h ListAgents in
  let r := {| full_url := "http://cursor-agents:3002/agents"; req_data := None;
              req_headers := []; req_method := None |} in
  let B := JObj [("error", JStr "X")] in
  In (r, Some 30) (sent (calls o))
  /\ network h r (Some 30) = Response 200 "OK" Inputs.error_body
  /\ loads (python h) Inputs.error_body = inl B
  /\ exit_code o = 1
  /\ stdout o = EmptyString
  /\ ~ (exit_code o = 0 /\ stdout o = json_dumps (Some 2%nat) B ++ newline).
Proof.
  vm_compute. repeat split; auto. intros [H _]. discriminate H.
Qed.

Lemma base_url_from_environment_witness :
  let h := Sample.host Inputs.unset (Inputs.ok Inputs.agents_body) in
  exists path,
    endpoint ListAgents = Some path
    /\ (forall v, environ h !! CURSOR_AGENTS_URL = Some v ->
        "http://cursor-agents:3002/agents" = v ++ path)
    /\ (environ h !! CURSOR_AGENTS_URL = None ->
        "http://cursor-agents:3002/agents" = default_api_url ++ path).
Proof.
  apply (base_url_from_environment
           (Sample.host Inputs.unset (Inputs.ok Inputs.agents_body)) ListAgents
           {| full_url := "http://cursor-agents:3002/agents"; req_data := None;
              req_headers := []; req_method := None |}).
  vm_compute. auto.
Defined.

(** C2 as stated fails: with CURSOR_AGENTS_URL set to the empty string,
    [list_agents] builds its request for the URL [/agents], not for the
    default base URL followed by [/agents]. *)
Lemma empty_variable_is_not_defaulted :
  let h := Sample.host Inputs.set_empty
             (Inputs.ok Inputs.agents_body) in
  environ h !! CURSOR_AGENTS_URL = Some EmptyString
  /\ claimed_base_url h = default_api_url
  /\ exists r, In r (built (calls (execute h ListAgents)))
               /\ full_url r = "/agents"
               /\ full_url r <> claimed_base_url h ++ "/agents".
Proof.
  vm_compute. repeat split.
  eexists. split; [left; reflexivity|]. split; [reflexivity|].
  intros E. discriminate E.
Qed.



Lemma headers_not_object_rejected_witness :
  let h := Sample.host Inputs.unset (Inputs.ok Inputs.agents_body) in
  let o := execute h (CreateAgent (Inputs.flags (Some "[1,2]") None None true)) in
  let e := ValueError "Headers must be a JSON object" in
  exit_code o = 1 /\ calls o = [] /\ stdout o = EmptyString
  /\ uncaught o = Some e
  /\ stderr o = traceback (python h) e ++ "ValueError: Headers must be a JSON object" ++ newline.
Proof.
  apply (headers_not_object_rejected
           (Sample.host Inputs.unset (Inputs.ok Inputs.agents_body))
           (Inputs.flags (Some "[1,2]") None None true)
           {| create_agent.name := "test-agent";
              create_agent.target_url := "http://cursor-runner:3001/health";
              create_agent.method := "POST";
              create_agent.headers := "[1,2]";
              create_agent.body := None;
              create_agent.schedule := None;
              create_agent.one_time := true;
              create_agent.timeout := 30000;
              create_agent.queue := None |}
           (JArr [JInt 1; JInt 2]));
    vm_compute; auto.
Defined.

(** C4 as stated fails on two invocations whose [--headers] value is the
    array [[1,2]]: without [--one-time] and [--schedule] the process exits
    with the usage error of the schedule check, which says nothing of JSON;
    without the required flags it exits with code 2. *)
Lemma headers_not_object_other_reports :
  let h := Sample.host Inputs.unset (Inputs.ok Inputs.agents_body) in
  let o1 := execute h (CreateAgent (Inputs.flags (Some "[1,2]") None None false)) in
  let o2 := execute h (CreateAgent [Opt "--headers" "[1,2]"; Switch "--one-time"]) in
  loads (python h) "[1,2]" = inl (JArr [JInt 1; JInt 2])
  /\ stderr o1 = usage_message ++ newline
  /\ str_contains "JSON" (stderr o1) = false
  /\ exit_code o2 = 2.
Proof. vm_compute. auto. Qed.

Lemma payload_keys_witness :
  let h := Sample.host Inputs.unset (Inputs.ok Inputs.agents_body) in
  let cl := Inputs.flags None (Some "{}") (Some "0 0 * * *") true in
  exists config,
    fst (create_agent.build_agent_config
           {| create_agent.name := "test-agent";
              create_agent.target_url := "http://cursor-runner:3001/health";
              create_agent.method := "POST";
              create_agent.headers := "{}";
              create_agent.body := Some "{}";
              create_agent.schedule := Some "0 0 * * *";
              create_agent.one_time := true;
              create_agent.timeout := 30000;
              create_agent.queue := None |} h start) = Normal config
    /\ keys config = ["name"; "targetUrl"; "method"; "headers"; "oneTime"; "timeout"; "body"]
    /\ (In "body" (keys config) <-> truthy (create_agent.cl_body cl) = true)
    /\ (In "schedule" (keys config) <->
        create_agent.cl_one_time cl = false /\ truthy (create_agent.cl_schedule cl) = true)
    /\ (In "queue" (keys config) <-> truthy (create_agent.cl_queue cl) = true)
    /\ (forall r, In r (built (calls (execute h (CreateAgent cl)))) ->
        req_data r = Some (json_dumps None (JObj config))).
Proof.
  apply (payload_keys
           (Sample.host Inputs.unset (Inputs.ok Inputs.agents_body))
           (Inputs.flags None (Some "{}") (Some "0 0 * * *") true));
    reflexivity.
Defined.

(** C5 as stated fails: [--one-time --body ''] is a valid invocation that
    provides [--body], and its payload has no [body] key. *)
Lemma empty_body_omitted :
  let h := Sample.host Inputs.unset (Inputs.ok Inputs.agents_body) in
  let cl := Inputs.flags None (Some EmptyString) None true in
  let args :=
    {| create_agent.name := "test-agent";
       create_agent.target_url := "http://cursor-runner:3001/health";
       create_agent.method := "POST";
       create_agent.headers := "{}";
       create_agent.body := Some EmptyString;
       create_agent.schedule := None;
       create_agent.one_time := true;
       create_agent.timeout := 30000;
       create_agent.queue := None |} in
  create_agent.cl_body cl = Some EmptyString
  /\ fst (create_agent.parse_arguments cl h start) = Normal args
  /\ fst (create_agent.validate_arguments args h start) = Normal tt
  /\ exists config,
       fst (create_agent.build_agent_config args h start) = Normal config
       /\ keys config = ["name"; "targetUrl"; "method"; "headers"; "oneTime"; "timeout"]
       /\ ~ In "body" (keys config).
Proof.
  vm_compute. repeat split. eexists. repeat split.
  intros H. repeat (destruct H as [H | H]; [discriminate H|]). exact H.
Qed.

Lemma transport_failure_reported_witness :
  let o := execute (Sample.host Inputs.unset Inputs.refused)
             (GetQueueInfo [Opt "--queue-name" "daily-tasks"]) in
  exit_code o = 1
  /\ uncaught o = None
  /\ stdout o = EmptyString
  /\ stderr o =
       error_output AgentTools "<urlopen error [Errno 111] Connection refused>".
Proof.
  apply (transport_failure_reported
           (Sample.host Inputs.unset Inputs.refused)
           (GetQueueInfo [Opt "--queue-name" "daily-tasks"])
           {| full_url := "http://cursor-agents:3002/queues/daily-tasks"; req_data := None;
              req_headers := []; req_method := None |}
           (Some 30) "<urlopen error [Errno 111] Connection refused>").
  - vm_compute. auto.
  - left. exists (UrlopenError "[Errno 111] Connection refused"). vm_compute. auto.
Defined.

Lemma read_timeouts_witness :
  ((exists argv, ListQueues = CheckTaskOperatorLock argv) /\ Some 30 = None)
  \/ ((forall argv, ListQueues <> CheckTaskOperatorLock argv) /\ Some 30 = Some 30).
Proof.
  apply (read_timeouts
           (Sample.host Inputs.unset (Inputs.ok Inputs.agents_body)) ListQueues
           {| full_url := "http://cursor-agents:3002/queues"; req_data := None;
              req_headers := []; req_method := None |}
           (Some 30));
    vm_compute; auto.
Defined.

(** C8 as stated fails: check lock issues a GET request and hands
    [urlopen] no timeout. *)
Lemma check_lock_has_no_timeout :
  let o := execute (Sample.host Inputs.unset (Inputs.ok Inputs.agents_body)) (CheckTaskOperatorLock []) in
  exists r,
    sent (calls o) = [(r, None)]
    /\ get_method r = "GET"
    /\ (None : option Z) <> Some 30.
Proof. vm_compute. eexists. repeat split. discriminate. Qed.


Lemma undecodable_success_body_reported_witness :
  let o := execute (Sample.host Inputs.unset (Inputs.ok EmptyString)) ListAgents in
  exit_code o = 1
  /\ uncaught o = None
  /\ stdout o = EmptyString
  /\ stderr o = error_output AgentTools "Expecting value: line 1 column 1 (char 0)".
Proof.
  apply (undecodable_success_body_reported
           (Sample.host Inputs.unset (Inputs.ok EmptyString)) ListAgents
           {| full_url := "http://cursor-agents:3002/agents"; req_data := None;
              req_headers := []; req_method := None |}
           (Some 30) 200 "OK" EmptyString
           (Malformed "Expecting value: line 1 column 1 (char 0)"));
    vm_compute; auto.
Defined.


Lemma any_2xx_prints_response_witness :
  let o := execute (Sample.host Inputs.unset (Response 201 "Created" Inputs.agents_body))
             ListAgents in
  exit_code o = 0
  /\ stdout o = json_dumps (Some 2%nat) (JObj [("agents", JArr [])]) ++ newline
  /\ stderr o = EmptyString
  /\ uncaught o = None.
Proof.
  apply (any_2xx_prints_response
           (Sample.host Inputs.unset (Response 201 "Created" Inputs.agents_body)) ListAgents
           {| full_url := "http://cursor-agents:3002/agents"; req_data := None;
              req_headers := []; req_method := None |}
           (Some 30) 201 "Created" Inputs.agents_body (JObj [("agents", JArr [])]));
    vm_compute; auto.
Defined.

Lemma success_with_error_member_reported_witness :
  let o := execute (Sample.host Inputs.unset (Inputs.ok Inputs.error_body))
             (CheckTaskOperatorLock []) in
  exit_code o = 1 /\ uncaught o = None /\ stdout o = EmptyString
  /\ stderr o = "Error: " ++ "X" ++ newline.
Proof.
  apply (success_with_error_member_reported
           (Sample.host Inputs.unset (Inputs.ok Inputs.error_body)) (CheckTaskOperatorLock [])
           {| full_url := "http://cursor-agents:3002/task-operator/lock"; req_data := None;
              req_headers := content_type_json; req_method := Some "GET" |}
           None 200 "OK" Inputs.error_body [("error", JStr "X")] (JStr "X"));
    vm_compute; auto.
Defined.

Lemma success_not_a_container_escapes_witness :
  let o := execute (Sample.host Inputs.unset (Inputs.ok "5")) ListQueues in
  exit_code o = 1 /\ stdout o = EmptyString
  /\ uncaught o = Some (TypeError ("argument of type '" ++ "int" ++ "' is not iterable")).
Proof.
  apply (success_not_a_container_escapes
           (Sample.host Inputs.unset (Inputs.ok "5")) ListQueues
           {| full_url := "http://cursor-agents:3002/queues"; req_data := None;
              req_headers := []; req_method := None |}
           (Some 30) 200 "OK" "5" (JInt 5));
    vm_compute; auto.
Defined.

Lemma marker_outside_object_witness :
  let body := "[" ++ Inputs.quoted "error" ++ "]" in
  let o := execute (Sample.host Inputs.unset (Inputs.ok body)) ListAgents in
  exit_code o = 1 /\ stdout o = EmptyString
  /\ uncaught o = None
  /\ stderr o = json_dumps (Some 2%nat) (JArr [JStr "error"]) ++ newline.
Proof.
  apply (marker_outside_object
           (Sample.host Inputs.unset (Inputs.ok ("[" ++ Inputs.quoted "error" ++ "]")))
           ListAgents
           {| full_url := "http://cursor-agents:3002/agents"; req_data := None;
              req_headers := []; req_method := None |}
           (Some 30) 200 "OK" ("[" ++ Inputs.quoted "error" ++ "]") (JArr [JStr "error"]));
    vm_compute; auto.
Defined.

Lemma http_error_field_reported_witness :
  let o := execute (Sample.host Inputs.unset (Response 404 "Not Found" Inputs.error_body))
             (DeleteAgent [Opt "--name" "nightly"]) in
  exit_code o = 1 /\ uncaught o = None /\ stdout o = EmptyString
  /\ stderr o =
       json_dumps (Some 2%nat) (JObj [("error", JStr "X"); ("status", JInt 404)]) ++ newline.
Proof.
  apply (http_error_field_reported
           (Sample.host Inputs.unset (Response 404 "Not Found" Inputs.error_body))
           (DeleteAgent [Opt "--name" "nightly"])
           {| full_url := "http://cursor-agents:3002/agents/nightly"; req_data := None;
              req_headers := []; req_method := Some "DELETE" |}
           (Some 30) 404 "Not Found" Inputs.error_body [("error", JStr "X")] (JStr "X"));
    vm_compute; auto.
Defined.

Lemma http_error_raw_body_reported_witness :
  let o := execute (Sample.host Inputs.unset (Response 500 "Internal Server Error" "oops"))
             (DisableTaskOperator []) in
  exit_code o = 1 /\ uncaught o = None /\ stdout o = EmptyString
  /\ stderr o = "Error: " ++ ("HTTP " ++ string_of_Z 500 ++ ": " ++ "oops") ++ newline.
Proof.
  apply (http_error_raw_body_reported
           (Sample.host Inputs.unset (Response 500 "Internal Server Error" "oops"))
           (DisableTaskOperator [])
           {| full_url := "http://cursor-agents:3002/task-operator"; req_data := None;
              req_headers := content_type_json; req_method := Some "DELETE" |}
           None 500 "Internal Server Error" "oops");
    vm_compute; eauto.
Defined.

Lemma http_error_not_object_escapes_witness :
  let h := Sample.host Inputs.unset (Response 500 "Internal Server Error" "[1,2]") in
  let o := execute h (ClearTaskOperatorLock []) in
  let e := AttributeError ("'" ++ "list" ++ "' object has no attribute 'get'") in
  exit_code o = 1 /\ uncaught o = Some e /\ stdout o = EmptyString
  /\ stderr o = traceback (python h) e ++ exn_line e ++ newline.
Proof.
  apply (http_error_not_object_escapes
           (Sample.host Inputs.unset (Response 500 "Internal Server Error" "[1,2]"))
           (ClearTaskOperatorLock [])
           {| full_url := "http://cursor-agents:3002/task-operator/lock"; req_data := None;
              req_headers := content_type_json; req_method := Some "DELETE" |}
           None 500 "Internal Server Error" "[1,2]" (JArr [JInt 1; JInt 2]));
    vm_compute; auto.
Defined.

Lemma error_status_exits_1_witness :
  let o := execute (Sample.host Inputs.unset (Response 503 "Service Unavailable" EmptyString))
             (GetAgentStatus [Opt "--name" "nightly"]) in
  exit_code o = 1 /\ stdout o = EmptyString /\ stderr o <> EmptyString.
Proof.
  apply (error_status_exits_1
           (Sample.host Inputs.unset (Response 503 "Service Unavailable" EmptyString))
           (GetAgentStatus [Opt "--name" "nightly"])
           {| full_url := "http://cursor-agents:3002/agents/nightly"; req_data := None;
              req_headers := []; req_method := None |}
           (Some 30) 503 "Service Unavailable" EmptyString);
    vm_compute; auto.
Defined.

Lemma rejected_url_sends_nothing_witness :
  let h := Sample.host Inputs.set_empty (Inputs.ok Inputs.agents_body) in
  let o := execute h (DisableTaskOperator []) in
  sent (calls o) = [] /\ exit_code o = 1 /\ stdout o = EmptyString
  /\ uncaught o = None
  /\ stderr o = "Error: " ++ "unknown url type: '/task-operator'" ++ newline.
Proof.
  apply (rejected_url_sends_nothing
           (Sample.host Inputs.set_empty (Inputs.ok Inputs.agents_body)) (DisableTaskOperator [])
           {| full_url := "/task-operator"; req_data := None;
              req_headers := content_type_json; req_method := Some "DELETE" |}
           "unknown url type: '/task-operator'");
    vm_compute; auto.
Defined.

Lemma accepted_url_sends_once_witness :
  let r := {| full_url := "http://cursor-agents:3002/queues/daily-tasks"; req_data := None;
              req_headers := []; req_method := Some "DELETE" |} in
  calls (execute (Sample.host Inputs.unset Inputs.refused) (DeleteQueue [Opt "--queue-name" "daily-tasks"]))
  = [BuildRequest r; Urlopen r (Some 30)].
Proof.
  apply (accepted_url_sends_once
           (Sample.host Inputs.unset Inputs.refused) (DeleteQueue [Opt "--queue-name" "daily-tasks"])
           {| full_url := "http://cursor-agents:3002/queues/daily-tasks"; req_data := None;
              req_headers := []; req_method := Some "DELETE" |});
    vm_compute; auto.
Defined.

Lemma request_method_witness :
  get_method {| full_url := "http://cursor-agents:3002/task-operator/lock"; req_data := None;
                req_headers := content_type_json; req_method := Some "DELETE" |}
  = "DELETE".
Proof.
  apply (request_method
           (Sample.host Inputs.unset (Inputs.ok Inputs.agents_body)) (ClearTaskOperatorLock [])
           {| full_url := "http://cursor-agents:3002/task-operator/lock"; req_data := None;
              req_headers := content_type_json; req_method := Some "DELETE" |});
    vm_compute; auto.
Defined.

Lemma content_type_header_witness :
  req_headers {| full_url := "http://cursor-agents:3002/task-operator/lock";
                 req_data := None;
                 req_headers := content_type_json; req_method := Some "GET" |}
  = content_type_json.
Proof.
  apply (content_type_header
           (Sample.host Inputs.unset (Inputs.ok Inputs.agents_body)) (CheckTaskOperatorLock [])
           {| full_url := "http://cursor-agents:3002/task-operator/lock"; req_data := None;
              req_headers := content_type_json; req_method := Some "GET" |});
    vm_compute; auto.
Defined.

Lemma request_body_witness :
  let payload := json_dumps None (JObj [("queue", JStr "task-operator")]) in
  req_data {| full_url := "http://cursor-agents:3002/task-operator";
              req_data := Some payload;
              req_headers := content_type_json; req_method := Some "POST" |}
  = simple_body (EnableTaskOperator []).
Proof.
  apply (request_body
           (Sample.host Inputs.unset (Inputs.ok Inputs.agents_body)) (EnableTaskOperator [])
           {| full_url := "http://cursor-agents:3002/task-operator";
              req_data := Some (json_dumps None (JObj [("queue", JStr "task-operator")]));
              req_headers := content_type_json; req_method := Some "POST" |}).
  - intros cl E. discriminate E.
  - vm_compute. auto.
Defined.

Lemma timeout_of_every_command_witness : Some 30 = Some 30.
Proof.
  apply (timeout_of_every_command
           (Sample.host Inputs.unset (Inputs.ok Inputs.agents_body))
           (DeleteQueue [Opt "--queue-name" "daily-tasks"])
           {| full_url := "http://cursor-agents:3002/queues/daily-tasks"; req_data := None;
              req_headers := []; req_method := Some "DELETE" |}
           (Some 30));
    vm_compute; auto.
Defined.

Lemma missing_required_flag_witness :
  let h := Sample.host Inputs.unset (Inputs.ok Inputs.agents_body) in
  let o := execute h (GetQueueInfo [Stray "daily-tasks"]) in
  exit_code o = 2 /\ calls o = [] /\ stdout o = EmptyString
  /\ stderr o =
       argparse_banner (python h)
       ++ "error: " ++ ("the following arguments are required: " ++ "--queue-name/-q")
       ++ newline.
Proof.
  apply (missing_required_flag
           (Sample.host Inputs.unset (Inputs.ok Inputs.agents_body))
           (GetQueueInfo [Stray "daily-tasks"])
           "--queue-name" "--queue-name/-q");
    reflexivity.
Defined.


Lemma invalid_headers_json_rejected_witness :
  let o := execute (Sample.host Inputs.unset (Inputs.ok Inputs.agents_body))
             (CreateAgent (Inputs.flags (Some "oops") None None true)) in
  exit_code o = 1 /\ calls o = [] /\ stdout o = EmptyString /\ uncaught o = None
  /\ stderr o = ("Error: Invalid JSON in --headers: "
                 ++ "Expecting value: line 1 column 1 (char 0)") ++ newline.
Proof.
  apply (invalid_headers_json_rejected
           (Sample.host Inputs.unset (Inputs.ok Inputs.agents_body))
           (Inputs.flags (Some "oops") None None true)
           {| create_agent.name := "test-agent";
              create_agent.target_url := "http://cursor-runner:3001/health";
              create_agent.method := "POST";
              create_agent.headers := "oops";
              create_agent.body := None;
              create_agent.schedule := None;
              create_agent.one_time := true;
              create_agent.timeout := 30000;
              create_agent.queue := None |}
           "Expecting value: line 1 column 1 (char 0)");
    vm_compute; auto.
Defined.

Lemma invalid_body_json_rejected_witness :
  let o := execute (Sample.host Inputs.unset (Inputs.ok Inputs.agents_body))
             (CreateAgent (Inputs.flags None (Some "oops") None true)) in
  exit_code o = 1 /\ calls o = [] /\ stdout o = EmptyString /\ uncaught o = None
  /\ stderr o = ("Error: Invalid JSON in --body: "
                 ++ "Expecting value: line 1 column 1 (char 0)") ++ newline.
Proof.
  apply (invalid_body_json_rejected
           (Sample.host Inputs.unset (Inputs.ok Inputs.agents_body))
           (Inputs.flags None (Some "oops") None true)
           {| create_agent.name := "test-agent";
              create_agent.target_url := "http://cursor-runner:3001/health";
              create_agent.method := "POST";
              create_agent.headers := "{}";
              create_agent.body := Some "oops";
              create_agent.schedule := None;
              create_agent.one_time := true;
              create_agent.timeout := 30000;
              create_agent.queue := None |}
           [] "oops" "Expecting value: line 1 column 1 (char 0)");
    vm_compute; auto.
Defined.


Lemma payload_values_witness :
  let h := Sample.host Inputs.unset (Inputs.ok Inputs.agents_body) in
  let cl := Inputs.flags None (Some "[1,2]") (Some "0 0 * * *") false in
  let sent_config :=
    [ ("name", JStr "test-agent");
      ("targetUrl", JStr "http://cursor-runner:3001/health");
      ("method", JStr "POST");
      ("headers", JObj []);
      ("oneTime", JBool false);
      ("timeout", JInt 30000);
      ("body", JArr [JInt 1; JInt 2]);
      ("schedule", JStr "0 0 * * *") ] in
  let r := {| full_url := "http://cursor-agents:3002/agents";
              req_data := Some (json_dumps None (JObj sent_config));
              req_headers := content_type_json; req_method := Some "POST" |} in
  exists config,
    req_data r = Some (json_dumps None (JObj config))
    /\ option_map JStr (create_agent.cl_name cl) = dict_lookup "name" config
    /\ option_map JStr (create_agent.cl_target_url cl) = dict_lookup "targetUrl" config
    /\ dict_lookup "method" config =
         Some (JStr match create_agent.cl_method cl with Some m => m | None => "POST" end)
    /\ (exists hd,
          loads (python h)
            match create_agent.cl_headers cl with Some v => v | None => "{}" end = inl hd
          /\ dict_lookup "headers" config = Some hd)
    /\ dict_lookup "oneTime" config = Some (JBool (create_agent.cl_one_time cl))
    /\ match create_agent.cl_timeout cl with
       | Some t => exists z, int_of_str (python h) t = Some z
                             /\ dict_lookup "timeout" config = Some (JInt z)
       | None => dict_lookup "timeout" config = Some (JInt 30000)
       end
    /\ match create_agent.cl_body cl with
       | Some b =>
           if nonempty b
           then exists v, loads (python h) b = inl v /\ dict_lookup "body" config = Some v
           else dict_lookup "body" config = None
       | None => dict_lookup "body" config = None
       end
    /\ dict_lookup "schedule" config =
         (if create_agent.cl_one_time cl then None
          else option_map JStr (create_agent.cl_schedule cl))
    /\ dict_lookup "queue" config =
         match create_agent.cl_queue cl with
         | Some q => if nonempty q then Some (JStr q) else None
         | None => None
         end.
Proof.
  apply (payload_values
           (Sample.host Inputs.unset (Inputs.ok Inputs.agents_body))
           (Inputs.flags None (Some "[1,2]") (Some "0 0 * * *") false)).
  vm_compute. auto.
Defined.


Lemma only_one_variable_read_witness :
  let answer := Inputs.ok Inputs.agents_body in
  execute (Sample.host Inputs.unset answer) ListAgents
  = execute (Sample.host (insert "HOME" "/root" Inputs.unset) answer) ListAgents.
Proof.
  apply (only_one_variable_read
           (Sample.host Inputs.unset (Inputs.ok Inputs.agents_body))
           (Sample.host (insert "HOME" "/root" Inputs.unset) (Inputs.ok Inputs.agents_body))
           ListAgents).
  repeat split.
Defined.
